(** * Codeforces-Companion: the test runner of [TestCaseHandler]

    A shallow embedding of the test-execution part of the extension
    (class [TestCaseHandler] and the interfaces it uses) together with the
    properties of it that the specification states.

    JavaScript strings are sequences of UTF-16 code units; they are modelled
    as lists of code units so that [trim], [trimEnd] and [split] see the same
    characters as the engine does. *)

From Stdlib Require Import List ZArith NArith Bool Lia.
From Stdlib Require Import String Ascii DecimalString.
Import ListNotations.

Local Open Scope list_scope.

(** ** JavaScript strings *)

Module Js.

(** A UTF-16 code unit. *)
Definition codeUnit := N.

Definition jsstring := list codeUnit.

(** An ASCII literal of the source as a JavaScript string. *)
Definition lit (s : string) : jsstring :=
  List.map N_of_ascii (list_ascii_of_string s).

(** The line feed, written ['\n'] in the source. *)
Definition nl : codeUnit := 10%N.

(** ECMAScript WhiteSpace and LineTerminator code points: what [trim],
    [trimStart] and [trimEnd] remove. *)
Definition isWhiteSpace (c : codeUnit) : bool :=
  ((c =? 9) || (c =? 10) || (c =? 11) || (c =? 12) || (c =? 13)
   || (c =? 32) || (c =? 160) || (c =? 5760)
   || ((8192 <=? c) && (c <=? 8202))
   || (c =? 8232) || (c =? 8233) || (c =? 8239) || (c =? 8287)
   || (c =? 12288) || (c =? 65279))%N.

(** [String.prototype.trimStart] *)
Fixpoint trimStart (s : jsstring) : jsstring :=
  match s with
  | [] => []
  | c :: s' => if isWhiteSpace c then trimStart s' else s
  end.

(** [String.prototype.trimEnd] *)
Fixpoint trimEnd (s : jsstring) : jsstring :=
  match s with
  | [] => []
  | c :: s' =>
      match trimEnd s' with
      | [] => if isWhiteSpace c then [] else [c]
      | r => c :: r
      end
  end.

(** [String.prototype.trim] *)
Definition trim (s : jsstring) : jsstring := trimEnd (trimStart s).

(** [s.split('\n')]: the pieces between the line feeds; never empty. *)
Fixpoint split (s : jsstring) : list jsstring :=
  match s with
  | [] => [[]]
  | c :: s' =>
      if (c =? nl)%N then [] :: split s'
      else match split s' with
           | l :: ls => (c :: l) :: ls
           | [] => [[c]]
           end
  end.

(** [a.join('\n')] *)
Fixpoint join (ls : list jsstring) : jsstring :=
  match ls with
  | [] => []
  | l :: ls' =>
      match ls' with
      | [] => l
      | _ :: _ => l ++ nl :: join ls'
      end
  end.

(** [===] on strings. *)
Definition eqb (a b : jsstring) : bool :=
  if list_eq_dec N.eq_dec a b then true else false.

(** [s.endsWith(suffix)] *)
Definition endsWith (s suffix : jsstring) : bool :=
  eqb (skipn (List.length s - List.length suffix) s) suffix
  && (List.length suffix <=? List.length s)%nat.

(** An integer inside a template literal: its decimal digits. *)
Definition decimal (z : Z) : jsstring :=
  lit (NilZero.string_of_int (Z.to_int z)).

(** A natural number inside a template literal. *)
Definition decimalNat (n : nat) : jsstring := decimal (Z.of_nat n).

(** ['='.repeat(n)] *)
Definition repeat (s : jsstring) (n : nat) : jsstring :=
  List.concat (List.repeat s n).

End Js.

Import Js.

(** ** Interfaces.ts *)

Module TestCase.
Record t := mk {
  input : jsstring;
  output : jsstring;
  explanation : option jsstring
}.
End TestCase.

Module ProblemData.
Record t := mk {
  title : jsstring;
  timeLimit : jsstring;
  memoryLimit : jsstring;
  description : jsstring;
  inputFormat : jsstring;
  outputFormat : jsstring;
  sampleTests : list TestCase.t;
  source : jsstring;
  difficulty : option jsstring
}.
End ProblemData.

Module TestResult.
Record t := mk {
  testNumber : nat;
  passed : bool;
  input : jsstring;
  expectedOutput : jsstring;
  actualOutput : jsstring;
  error : option jsstring;
  executionTime : Z
}.
End TestResult.

(** ** The runtime the handler talks to *)

(** A thrown value, or the reason a promise is rejected with. *)
Inductive Thrown :=
| ErrorObject (message : jsstring)
| OtherValue (asString : jsstring).

(** What an [await] observes of a promise; [Pending] is a promise that is
    never settled, on which the [await] does not return. *)
Inductive Outcome (A : Type) :=
| Resolved (a : A)
| Rejected (e : Thrown)
| Pending.
Arguments Resolved {A} a.
Arguments Rejected {A} e.
Arguments Pending {A}.

(** What the event loop delivers for one child process, in delivery order.
    [now] is the reading of [Date.now()] inside the callback.  The source
    listens to the first four; Node reports a child that could not be
    launched (file missing, not executable) through the ['error'] event of
    the child, and not by a throw of [spawn]. *)
Inductive Event :=
| StdoutData (chunk : jsstring)
| StderrData (chunk : jsstring)
| TimerFires (now : Z)
| Close (code : option Z) (now : Z)
| ChildError (e : Thrown).

(** What [cp.spawn] does in one call of [runSingleTest]. *)
Inductive Launch :=
| SpawnThrows (e : Thrown)
| Spawned (events : list Event).

(** One call of [runSingleTest] as the outside world determines it. *)
Record Attempt := {
  startTime : Z;
  launch : Launch
}.

(** What the handler does to the outside world.  The [console.log] lines are
    left out. *)
Inductive Effect :=
| Spawn (executablePath : jsstring)
| StdinWrite (data : jsstring)
| StdinEnd
| SetTimeout (ms : Z)
| ClearTimeout
| Kill
| UncaughtException (e : Thrown)
| ShowErrorMessage (m : jsstring)
| ShowInformationMessage (m : jsstring)
| ShowWarningMessage (m : jsstring)
| SaveDocument
| Exec (command : jsstring)
| CreateOutputChannel (name : jsstring)
| ChannelClear
| ChannelShow
| AppendLine (line : jsstring)
| Unlink (path : jsstring).

(** The document in the active editor. *)
Record Editor := {
  fileName : jsstring;
  isDirty : bool;
  save : option Thrown  (* [None]: the save succeeds *)
}.

(** Everything outside the handler: the editor, Node's [path] and [fs], the
    compiler run by [cp.exec] ([Some (stderr, message)] when it fails) and
    the child processes, one attempt per loop index. *)
Record Host := {
  activeTextEditor : option Editor;
  basename : jsstring -> jsstring -> jsstring;
  dirname : jsstring -> jsstring;
  pathJoin : jsstring -> jsstring -> jsstring;
  exec : jsstring -> option (jsstring * jsstring);
  existsSync : jsstring -> bool;
  child : nat -> Attempt
}.

(** ** TestCaseHandler *)

(** [error instanceof Error ? error.message : String(error)] *)
Definition errorMessage (error : Thrown) : jsstring :=
  match error with
  | ErrorObject message => message
  | OtherValue asString => asString
  end.

Definition normalizeOutput (output : jsstring) : jsstring :=
  trim (join (List.map trimEnd (split output))).

Definition compareOutputs (actual expected : jsstring) : bool :=
  let normalizedActual := normalizeOutput actual in
  let normalizedExpected := normalizeOutput expected in
  Js.eqb normalizedActual normalizedExpected.

(** The closure of one [runSingleTest] call: its two buffers, whether the
    timer is still to fire, the promise ([None] while unsettled) and the
    effects so far. *)
Record Run := {
  stdout : jsstring;
  stderr : jsstring;
  timeoutPending : bool;
  promise : option TestResult.t;
  effects : list Effect
}.

Definition perform (e : Effect) (st : Run) : Run :=
  {| stdout := stdout st; stderr := stderr st;
     timeoutPending := timeoutPending st; promise := promise st;
     effects := effects st ++ [e] |}.

(** [resolve(r)]: only the first call settles the promise. *)
Definition resolve (r : TestResult.t) (st : Run) : Run :=
  match promise st with
  | Some _ => st
  | None =>
      {| stdout := stdout st; stderr := stderr st;
         timeoutPending := timeoutPending st; promise := Some r;
         effects := effects st |}
  end.

Definition disarm (st : Run) : Run :=
  {| stdout := stdout st; stderr := stderr st;
     timeoutPending := false; promise := promise st;
     effects := effects st |}.

(** The record the timer callback resolves with. *)
Definition timeoutResult (testCase : TestCase.t) (testNumber : nat)
    (startTime : Z) (stdout : jsstring) (now : Z) : TestResult.t :=
  {| TestResult.testNumber := testNumber;
     TestResult.passed := false;
     TestResult.input := TestCase.input testCase;
     TestResult.expectedOutput := TestCase.output testCase;
     TestResult.actualOutput := stdout;
     TestResult.error := Some (lit "Time Limit Exceeded");
     TestResult.executionTime := now - startTime |}.

(** The record the ['close'] listener resolves with. *)
Definition closeResult (testCase : TestCase.t) (testNumber : nat)
    (startTime : Z) (stdout stderr : jsstring) (code : option Z) (now : Z)
    : TestResult.t :=
  let executionTime := (now - startTime)%Z in
  match code with
  | None =>
      {| TestResult.testNumber := testNumber;
         TestResult.passed := false;
         TestResult.input := TestCase.input testCase;
         TestResult.expectedOutput := TestCase.output testCase;
         TestResult.actualOutput := stdout;
         TestResult.error := Some
           (lit "Process terminated unexpectedly. Program may be waiting for input or stuck in infinite loop."
            ++ [nl] ++ lit "Stderr: " ++ stderr);
         TestResult.executionTime := executionTime |}
  | Some code =>
      if negb (code =? 0)%Z then
        {| TestResult.testNumber := testNumber;
           TestResult.passed := false;
           TestResult.input := TestCase.input testCase;
           TestResult.expectedOutput := TestCase.output testCase;
           TestResult.actualOutput := stdout;
           TestResult.error := Some
             (lit "Runtime Error (Exit code: " ++ decimal code ++ lit ")"
              ++ [nl] ++ stderr);
           TestResult.executionTime := executionTime |}
      else
        let passed := compareOutputs stdout (TestCase.output testCase) in
        {| TestResult.testNumber := testNumber;
           TestResult.passed := passed;
           TestResult.input := TestCase.input testCase;
           TestResult.expectedOutput := TestCase.output testCase;
           TestResult.actualOutput := stdout;
           TestResult.error :=
             if passed then None else Some (lit "Wrong Answer");
           TestResult.executionTime := executionTime |}
  end.

(** One callback of [runSingleTest].  A timer that was cleared, or that has
    fired, does not fire; an ['error'] event finds no listener and is thrown
    by the emitter outside the promise. *)
Definition deliver (testCase : TestCase.t) (testNumber : nat) (startTime : Z)
    (st : Run) (ev : Event) : Run :=
  match ev with
  | StdoutData chunk =>
      {| stdout := stdout st ++ chunk; stderr := stderr st;
         timeoutPending := timeoutPending st; promise := promise st;
         effects := effects st |}
  | StderrData chunk =>
      {| stdout := stdout st; stderr := stderr st ++ chunk;
         timeoutPending := timeoutPending st; promise := promise st;
         effects := effects st |}
  | TimerFires now =>
      if timeoutPending st then
        let st := perform Kill (disarm st) in
        resolve (timeoutResult testCase testNumber startTime (stdout st) now)
                st
      else st
  | Close code now =>
      let st := perform ClearTimeout (disarm st) in
      resolve (closeResult testCase testNumber startTime
                 (stdout st) (stderr st) code now) st
  | ChildError e => perform (UncaughtException e) st
  end.

(** The state the promise executor leaves behind when [spawn] returns. *)
Definition spawned (executablePath : jsstring) (testCase : TestCase.t) : Run :=
  {| stdout := []; stderr := []; timeoutPending := true; promise := None;
     effects := [Spawn executablePath;
                 StdinWrite (TestCase.input testCase ++ [nl]);
                 StdinEnd;
                 SetTimeout 5000] |}.

(** The callbacks run in the order of the events. *)
Definition deliverAll (testCase : TestCase.t) (testNumber : nat)
    (startTime : Z) (events : list Event) (st : Run) : Run :=
  fold_left (deliver testCase testNumber startTime) events st.

Definition runSingleTest (executablePath : jsstring) (testCase : TestCase.t)
    (testNumber : nat) (a : Attempt)
    : Outcome TestResult.t * list Effect :=
  match launch a with
  | SpawnThrows e => (Rejected e, [Spawn executablePath])
  | Spawned events =>
      let st := deliverAll testCase testNumber (startTime a) events
                  (spawned executablePath testCase) in
      (match promise st with
       | Some result => Resolved result
       | None => Pending
       end, effects st)
  end.

(** The record the [catch] of [runTestCases] pushes at index [i]. *)
Definition caughtResult (testCase : TestCase.t) (i : nat) (error : Thrown)
    : TestResult.t :=
  let errorMessage := errorMessage error in
  {| TestResult.testNumber := i + 1;
     TestResult.passed := false;
     TestResult.input := TestCase.input testCase;
     TestResult.expectedOutput := TestCase.output testCase;
     TestResult.actualOutput := [];
     TestResult.error := Some errorMessage;
     TestResult.executionTime := 0 |}.

(** The events that settle the promise when they come first. *)
Definition settles (ev : Event) : bool :=
  match ev with
  | TimerFires _ | Close _ _ => true
  | StdoutData _ | StderrData _ | ChildError _ => false
  end.

(** The events of a child up to the first that settles its promise.  When
    the promise is settled the code after the [await] runs at once, before
    the event loop delivers anything more: what the child sends later
    finds the loop at a later point. *)
Fixpoint untilSettled (events : list Event) : list Event :=
  match events with
  | [] => []
  | ev :: events' =>
      if settles ev then [ev] else ev :: untilSettled events'
  end.

(** An attempt as the [await] on its promise sees it. *)
Definition awaitedPart (a : Attempt) : Attempt :=
  {| startTime := startTime a;
     launch := match launch a with
               | SpawnThrows e => SpawnThrows e
               | Spawned events => Spawned (untilSettled events)
               end |}.

(** The loop of [runTestCases] from index [i] on, [rest] being the test
    cases from there and [results] the array pushed so far.  The log holds
    what is done up to the moment each promise is settled, in that order;
    the reactions to the events a child sends after that moment are not in
    it (see [lateReactions]). *)
Fixpoint runTestCasesFrom (executablePath : jsstring) (world : nat -> Attempt)
    (i : nat) (rest : list TestCase.t) (results : list TestResult.t)
    (log : list Effect) : Outcome (list TestResult.t) * list Effect :=
  match rest with
  | [] => (Resolved results, log)
  | testCase :: rest' =>
      let (awaited, done) :=
        runSingleTest executablePath testCase (i + 1)
          (awaitedPart (world i)) in
      match awaited with
      | Resolved result =>
          runTestCasesFrom executablePath world (S i) rest'
            (results ++ [result]) (log ++ done)
      | Rejected error =>
          runTestCasesFrom executablePath world (S i) rest'
            (results ++ [caughtResult testCase i error]) (log ++ done)
      | Pending => (Pending, log ++ done)
      end
  end.

Definition runTestCases (executablePath : jsstring)
    (testCases : list TestCase.t) (world : nat -> Attempt)
    : Outcome (list TestResult.t) * list Effect :=
  runTestCasesFrom executablePath world 0 testCases [] [].

(** What the callbacks of a child still do after its promise was settled.
    The runtime delivers these events while the loop is at a later child, or
    after [handleRunTests] has finished: their place among the later effects
    is not fixed, only that they come after the effects the log has for
    this child. *)
Definition lateReactions (executablePath : jsstring) (testCase : TestCase.t)
    (testNumber : nat) (a : Attempt) : list Effect :=
  skipn
    (List.length
       (snd (runSingleTest executablePath testCase testNumber
               (awaitedPart a))))
    (snd (runSingleTest executablePath testCase testNumber a)).

(** The two counts [showTestResults] derives from the results. *)
Definition passedTests (results : list TestResult.t) : nat :=
  List.length (List.filter TestResult.passed results).

Definition totalTests (results : list TestResult.t) : nat :=
  List.length results.

(** The characters of the source that are not ASCII. *)
Definition checkMark : jsstring := [9989%N].
Definition crossMark : jsstring := [10060%N].
Definition arrowsMark : jsstring := [55357%N; 56580%N].
Definition quote : codeUnit := 34%N.

(** The lines [showTestResults] appends for one result. *)
Definition resultLines (result : TestResult.t) : list Effect :=
  [AppendLine ([nl] ++ lit "Test " ++ decimalNat (TestResult.testNumber result)
               ++ lit ": "
               ++ (if TestResult.passed result
                   then checkMark ++ lit " PASSED"
                   else crossMark ++ lit " FAILED"));
   AppendLine (lit "Execution Time: "
               ++ decimal (TestResult.executionTime result) ++ lit "ms")]
  ++ (if negb (TestResult.passed result) then
        [AppendLine ([nl] ++ lit "Input:");
         AppendLine (TestResult.input result);
         AppendLine ([nl] ++ lit "Expected Output:");
         AppendLine (TestResult.expectedOutput result);
         AppendLine ([nl] ++ lit "Actual Output:");
         AppendLine (TestResult.actualOutput result)]
        ++ match TestResult.error result with
           | Some (c :: e) => [AppendLine ([nl] ++ lit "Error: " ++ c :: e)]
           | Some [] | None => []
           end
        ++ [AppendLine (Js.repeat (lit "-") 40)]
      else []).

Definition showTestResults (results : list TestResult.t) : list Effect :=
  let passedTests := passedTests results in
  let totalTests := totalTests results in
  [if (passedTests =? totalTests)%nat then
     ShowInformationMessage
       (checkMark ++ lit " All " ++ decimalNat totalTests
        ++ lit " tests passed!")
   else
     ShowWarningMessage
       (crossMark ++ lit " " ++ decimalNat passedTests ++ lit "/"
        ++ decimalNat totalTests ++ lit " tests passed");
   CreateOutputChannel (lit "Test Results");
   ChannelClear;
   ChannelShow;
   AppendLine (Js.repeat (lit "=") 60);
   AppendLine (lit "TEST RESULTS: " ++ decimalNat passedTests ++ lit "/"
               ++ decimalNat totalTests ++ lit " PASSED");
   AppendLine (Js.repeat (lit "=") 60)]
  ++ List.flat_map resultLines results.

(** [cleanup]: a failing [unlinkSync] is ignored. *)
Definition cleanup (host : Host) (executablePath : jsstring) : list Effect :=
  if existsSync host executablePath then [Unlink executablePath] else [].

Definition compileCppFile (host : Host) (cppFilePath : jsstring)
    : Outcome jsstring * list Effect :=
  let fileName := basename host cppFilePath (lit ".cpp") in
  let executablePath :=
    pathJoin host (dirname host cppFilePath) (fileName ++ lit ".exe") in
  let compileCommand :=
    lit "g++ -o " ++ [quote] ++ executablePath ++ [quote] ++ lit " "
    ++ [quote] ++ cppFilePath ++ [quote] ++ lit " -std=c++17 -O2" in
  (match exec host compileCommand with
   | Some (stderr, message) =>
       Rejected (OtherValue
         (lit "Compilation failed: "
          ++ match stderr with [] => message | _ :: _ => stderr end))
   | None => Resolved executablePath
   end, [Exec compileCommand]).

(** The [catch] of [handleRunTests]. *)
Definition testExecutionFailed (error : Thrown) : Effect :=
  ShowErrorMessage (lit "Test execution failed: " ++ errorMessage error).

(** [handleRunTests]: what it does, in order, until it returns.  As in
    [runTestCases], the reactions to what a child sends after its promise
    was settled are not in this list: they come later, at a time the
    runtime chooses. *)
Definition handleRunTests (host : Host) (problemData : option ProblemData.t)
    : list Effect :=
  match problemData with
  | None => [ShowErrorMessage (lit "No problem data exisis")]
  | Some problemData =>
      match activeTextEditor host with
      | None => [ShowErrorMessage (lit "Please open a C++ file to run tests")]
      | Some activeEditor =>
          if negb (endsWith (fileName activeEditor) (lit ".cpp")) then
            [ShowErrorMessage (lit "Please open a C++ file to run tests")]
          else
            let cppFilePath := fileName activeEditor in
            match (if isDirty activeEditor then save activeEditor else None)
            with
            | Some error => [SaveDocument; testExecutionFailed error]
            | None =>
                (if isDirty activeEditor then [SaveDocument] else [])
                ++ [ShowInformationMessage
                      (arrowsMark ++ lit " Compiling and running tests...")]
                ++ let (compiled, compiling) :=
                     compileCppFile host cppFilePath in
                   compiling ++
                   match compiled with
                   | Rejected error => [testExecutionFailed error]
                   | Pending => []
                   | Resolved executablePath =>
                       let (awaited, running) :=
                         runTestCases executablePath
                           (ProblemData.sampleTests problemData)
                           (child host) in
                       running ++
                       match awaited with
                       | Resolved results =>
                           showTestResults results
                           ++ cleanup host executablePath
                       | Rejected error => [testExecutionFailed error]
                       | Pending => []
                       end
                   end
            end
      end
  end.

(** ** Reading a run *)

(** How a child process ends from the handler's point of view: the timer
    callback ran, or the ['close'] listener received a null or a numeric
    code. *)
Inductive ExitStatus :=
| ExitedWithCode (n : Z)
| Killed
| TimedOut.

Definition exitStatus (ev : Event) : option ExitStatus :=
  match ev with
  | TimerFires _ => Some TimedOut
  | Close None _ => Some Killed
  | Close (Some n) _ => Some (ExitedWithCode n)
  | StdoutData _ | StderrData _ | ChildError _ => None
  end.

(** The chunks of standard output, and of standard error, among events. *)
Definition stdoutOf (events : list Event) : jsstring :=
  List.flat_map
    (fun ev => match ev with StdoutData chunk => chunk | _ => [] end) events.

Definition stderrOf (events : list Event) : jsstring :=
  List.flat_map
    (fun ev => match ev with StderrData chunk => chunk | _ => [] end) events.

(** An attempt on which [runSingleTest] settles its promise: the launch
    throws, or the timer callback or the ['close'] listener runs. *)
Definition settling (a : Attempt) : bool :=
  match launch a with
  | SpawnThrows _ => true
  | Spawned events => List.existsb settles events
  end.

(** The five kinds of result the handler builds, as they show in the
    fields [passed] and [error]. *)
Definition accepted (r : TestResult.t) : Prop :=
  TestResult.passed r = true /\ TestResult.error r = None.

Definition wrongAnswer (r : TestResult.t) : Prop :=
  TestResult.passed r = false
  /\ TestResult.error r = Some (lit "Wrong Answer").

Definition timeLimitExceeded (r : TestResult.t) : Prop :=
  TestResult.passed r = false
  /\ TestResult.error r = Some (lit "Time Limit Exceeded").

Definition runtimeError (code : Z) (stderr : jsstring) (r : TestResult.t)
    : Prop :=
  TestResult.passed r = false
  /\ TestResult.error r =
       Some (lit "Runtime Error (Exit code: " ++ decimal code ++ lit ")"
             ++ [nl] ++ stderr).

Definition terminatedUnexpectedly (stderr : jsstring) (r : TestResult.t)
    : Prop :=
  TestResult.passed r = false
  /\ TestResult.error r =
       Some (lit "Process terminated unexpectedly. Program may be waiting for input or stuck in infinite loop."
             ++ [nl] ++ lit "Stderr: " ++ stderr).

(** The result pushed by the [catch] of [runTestCases]. *)
Definition internalError (error : Thrown) (r : TestResult.t) : Prop :=
  TestResult.passed r = false
  /\ TestResult.error r = Some (errorMessage error)
  /\ TestResult.actualOutput r = []
  /\ TestResult.executionTime r = 0%Z.

Definition acceptedb (r : TestResult.t) : bool :=
  TestResult.passed r
  && match TestResult.error r with None => true | Some _ => false end.

(** The uncaught exceptions a sequence of events leaves behind. *)
Definition faultsOf (events : list Event) : list Effect :=
  List.flat_map
    (fun ev => match ev with
               | ChildError e => [UncaughtException e]
               | _ => []
               end) events.

(** The record a settling event resolves the promise with when the events
    [pre] were delivered before it. *)
Definition settlement (testCase : TestCase.t) (testNumber : nat)
    (startTime : Z) (pre : list Event) (ev : Event) : option TestResult.t :=
  match ev with
  | TimerFires now =>
      Some (timeoutResult testCase testNumber startTime (stdoutOf pre) now)
  | Close code now =>
      Some (closeResult testCase testNumber startTime
              (stdoutOf pre) (stderrOf pre) code now)
  | StdoutData _ | StderrData _ | ChildError _ => None
  end.

(** What one turn of the loop of [runTestCases] pushes at index [i]. *)
Definition pushed (executablePath : jsstring) (world : nat -> Attempt)
    (i : nat) (testCase : TestCase.t) : option TestResult.t :=
  match fst (runSingleTest executablePath testCase (i + 1) (world i)) with
  | Resolved result => Some result
  | Rejected error => Some (caughtResult testCase i error)
  | Pending => None
  end.

(** The effects that answer an event, as opposed to those of the set-up. *)
Definition isReaction (e : Effect) : bool :=
  match e with
  | Kill | ClearTimeout | UncaughtException _ => true
  | _ => false
  end.

(** A result that belongs to test case [testCase] under number [n] and
    whose [error] is null exactly when it passed. *)
Definition resultFor (testCase : TestCase.t) (n : nat) (r : TestResult.t)
    : Prop :=
  TestResult.testNumber r = n
  /\ TestResult.input r = TestCase.input testCase
  /\ TestResult.expectedOutput r = TestCase.output testCase
  /\ (TestResult.passed r = true <-> TestResult.error r = None).

Definition passedIffNoError (r : TestResult.t) : Prop :=
  TestResult.passed r = true <-> TestResult.error r = None.

(** ** The normalisation as the specification words it

    Section 4.2: split on line boundaries, strip trailing white space from
    each line, rejoin with a single newline, then strip leading and trailing
    blank lines from the whole text.  This second definition follows those
    words; it is compared with [normalizeOutput] below. *)

Definition blank (l : jsstring) : bool :=
  match trimEnd l with [] => true | _ :: _ => false end.

Fixpoint dropBlankStart (ls : list jsstring) : list jsstring :=
  match ls with
  | [] => []
  | l :: ls' => if blank l then dropBlankStart ls' else ls
  end.

Fixpoint dropBlankEnd (ls : list jsstring) : list jsstring :=
  match ls with
  | [] => []
  | l :: ls' =>
      match dropBlankEnd ls' with
      | [] => if blank l then [] else [l]
      | r => l :: r
      end
  end.

Definition normalizeAsSpecified (text : jsstring) : jsstring :=
  join (dropBlankStart (dropBlankEnd (List.map trimEnd (split text)))).

(** Lines as [normalizeOutput] rejoins them: no white space at the end of a
    line and no line feed inside one. *)
Definition trimmedLines (ls : list jsstring) : Prop :=
  Forall (fun l => trimEnd l = l /\ ~ In nl l) ls.

(** ** Sample data

    The scenarios of section 8: input ["8"], expected output ["YES"]. *)

Definition sampleCase : TestCase.t :=
  {| TestCase.input := lit "8";
     TestCase.output := lit "YES";
     TestCase.explanation := None |}.

Definition sampleExecutable : jsstring := lit "solution.exe".

(** A child that prints ["YES\n"] and exits with code 0 after 12 ms. *)
Definition printsYes : Attempt :=
  {| startTime := 1000;
     launch := Spawned [StdoutData (lit "YES" ++ [nl]); Close (Some 0%Z) 1012] |}.

(** A child that prints ["NO"] and is still running when the timer fires;
    the ['close'] that follows the kill carries a null code. *)
Definition loopsForever : Attempt :=
  {| startTime := 1000;
     launch := Spawned [StdoutData (lit "NO"); TimerFires 6001;
                        Close None 6003] |}.

(** The executable is missing: [spawn] returns, the child emits ['error']
    and never ['close'], and the timer fires five seconds later. *)
Definition spawnENOENT : Thrown :=
  ErrorObject (lit "spawn solution.exe ENOENT").

Definition missingExecutable : Attempt :=
  {| startTime := 1000;
     launch := Spawned [ChildError spawnENOENT; TimerFires 6000] |}.

(** The same problem with another text in the field [timeLimit]. *)
Definition withTimeLimit (timeLimit : jsstring) (p : ProblemData.t)
    : ProblemData.t :=
  {| ProblemData.title := ProblemData.title p;
     ProblemData.timeLimit := timeLimit;
     ProblemData.memoryLimit := ProblemData.memoryLimit p;
     ProblemData.description := ProblemData.description p;
     ProblemData.inputFormat := ProblemData.inputFormat p;
     ProblemData.outputFormat := ProblemData.outputFormat p;
     ProblemData.sampleTests := ProblemData.sampleTests p;
     ProblemData.source := ProblemData.source p;
     ProblemData.difficulty := ProblemData.difficulty p |}.

(** The only delay a timer is ever set with. *)
Definition timerOf5000 (e : Effect) : Prop :=
  match e with
  | SetTimeout ms => ms = 5000%Z
  | _ => True
  end.

Definition isSpawn (e : Effect) : bool :=
  match e with Spawn _ => true | _ => false end.

(** A test that expects ["8"], and a child that prints ["  8"] and exits
    with code 0. *)
Definition eightCase : TestCase.t :=
  {| TestCase.input := lit "8";
     TestCase.output := lit "8";
     TestCase.explanation := None |}.

Definition printsIndented : Attempt :=
  {| startTime := 1000;
     launch := Spawned [StdoutData (lit "  8"); Close (Some 0%Z) 1012] |}.

(** What can follow the settling of a promise: [clearTimeout] and uncaught
    faults. *)
Definition isLate (e : Effect) : bool :=
  match e with
  | ClearTimeout | UncaughtException _ => true
  | _ => false
  end.

(** ** Further readings of texts and logs *)

(** The characters of a text that are not white space, in order. *)
Definition inkOf (s : jsstring) : jsstring :=
  List.filter (fun c => negb (isWhiteSpace c)) s.

(** The carriage return. *)
Definition cr : codeUnit := 13%N.

(** The text [s] with [pad] put before each of its line feeds: with [pad]
    a carriage return it is [s] with Windows line ends. *)
Definition padLineEnds (pad s : jsstring) : jsstring :=
  List.flat_map (fun c => if (c =? nl)%N then pad ++ [nl] else [c]) s.

Definition isKill (e : Effect) : bool :=
  match e with Kill => true | _ => false end.

Definition isClearTimeout (e : Effect) : bool :=
  match e with ClearTimeout => true | _ => false end.

(** What a log writes to standard inputs, in order. *)
Definition writesOf (log : list Effect) : list jsstring :=
  List.flat_map
    (fun e => match e with StdinWrite data => [data] | _ => [] end) log.

(** The executables a log spawns, in order. *)
Definition spawnsOf (log : list Effect) : list jsstring :=
  List.flat_map
    (fun e => match e with Spawn path => [path] | _ => [] end) log.

(** An attempt whose [spawn] returns a child. *)
Definition launched (a : Attempt) : bool :=
  match launch a with
  | Spawned _ => true
  | SpawnThrows _ => false
  end.

(** The test cases with their loop indices. *)
Definition indexed (testCases : list TestCase.t)
    : list (nat * TestCase.t) :=
  List.combine (seq 0 (List.length testCases)) testCases.

(** The effects [showTestResults] is made of: messages and lines of the
    output channel. *)
Definition isDisplay (e : Effect) : bool :=
  match e with
  | ShowInformationMessage _ | ShowWarningMessage _
  | CreateOutputChannel _ | ChannelClear | ChannelShow | AppendLine _ => true
  | _ => false
  end.

Definition isUnlink (e : Effect) : bool :=
  match e with Unlink _ => true | _ => false end.

(** The command line [compileCppFile] runs and the path it resolves with. *)
Definition executableFor (host : Host) (cppFilePath : jsstring) : jsstring :=
  pathJoin host (dirname host cppFilePath)
    (basename host cppFilePath (lit ".cpp") ++ lit ".exe").

Definition compileCommandFor (host : Host) (cppFilePath : jsstring)
    : jsstring :=
  lit "g++ -o " ++ [quote] ++ executableFor host cppFilePath ++ [quote]
  ++ lit " " ++ [quote] ++ cppFilePath ++ [quote] ++ lit " -std=c++17 -O2".

(** A host whose editor holds a clean file [cppFilePath], whose compiler
    answers [compiler] and whose children are [children]. *)
Definition sampleHost (cppFilePath : jsstring)
    (compiler : option (jsstring * jsstring)) (children : nat -> Attempt)
    : Host :=
  {| activeTextEditor :=
       Some {| fileName := cppFilePath; isDirty := false; save := None |};
     basename := fun p ext =>
       if endsWith p ext
       then firstn (List.length p - List.length ext) p
       else p;
     dirname := fun _ => lit ".";
     pathJoin := fun d f => d ++ lit "/" ++ f;
     exec := fun _ => compiler;
     existsSync := fun _ => true;
     child := children |}.

Definition sampleProblem : ProblemData.t :=
  {| ProblemData.title := lit "A. Watermelon";
     ProblemData.timeLimit := lit "1 second";
     ProblemData.memoryLimit := lit "64 megabytes";
     ProblemData.description := lit "Divide the watermelon.";
     ProblemData.inputFormat := lit "One integer w.";
     ProblemData.outputFormat := lit "YES or NO.";
     ProblemData.sampleTests := [sampleCase];
     ProblemData.source := lit "Codeforces";
     ProblemData.difficulty := Some (lit "800") |}.

(** The effects of [runSingleTest]: those on a child and its timer. *)
Definition isProcess (e : Effect) : bool :=
  match e with
  | Spawn _ | StdinWrite _ | StdinEnd | SetTimeout _ | ClearTimeout | Kill
  | UncaughtException _ => true
  | _ => false
  end.

(** The diagnostic of a failed compilation: [stderr || error.message]. *)
Definition compileDiagnostic (stderr message : jsstring) : jsstring :=
  match stderr with [] => message | _ :: _ => stderr end.

(** What [handleRunTests] does before it compiles, for an editor that
    passed the checks. *)
Definition preamble (activeEditor : Editor) : list Effect :=
  (if isDirty activeEditor then [SaveDocument] else [])
  ++ [ShowInformationMessage
        (arrowsMark ++ lit " Compiling and running tests...")].

(** ** The callers of the handler

    [getDummyProblemData] of ProblemScraper.ts: the problem shown when the
    viewer is opened without a URL. *)
Definition getDummyProblemData : ProblemData.t :=
  {| ProblemData.title := lit "A. Watermelon";
     ProblemData.timeLimit := lit "1 second";
     ProblemData.memoryLimit := lit "64 megabytes";
     ProblemData.description :=
       lit "One hot summer day Pete and his friend Billy decided to buy a watermelon. They chose the biggest and the most beautiful watermelon in the whole store. But to their surprise, the cashier told them that the price of the watermelon is <strong>w</strong> dollars, where <strong>w</strong> is even. Pete and Billy are only able to eat the watermelon if they can divide it into two parts such that each part weighs an even number of kilograms and each part weighs at least 2 kilograms.";
     ProblemData.inputFormat :=
       lit "The first line contains a single integer <strong>w</strong> (1 " ++ [8804%N] ++ lit " w " ++ [8804%N] ++ lit " 100) " ++ [8212%N] ++ lit " the weight of the watermelon.";
     ProblemData.outputFormat :=
       lit "Print <strong>YES</strong> if the watermelon can be divided according to the rules, and <strong>NO</strong> otherwise.";
     ProblemData.sampleTests :=
       [ {| TestCase.input := lit "8";
            TestCase.output := lit "YES";
            TestCase.explanation := Some
              (lit "We can divide 8 into 4 + 4, both are even and " ++ [8805%N] ++ lit " 2") |};
         {| TestCase.input := lit "6";
            TestCase.output := lit "YES";
            TestCase.explanation := Some
              (lit "We can divide 6 into 2 + 4, both are even and " ++ [8805%N] ++ lit " 2") |};
         {| TestCase.input := lit "2";
            TestCase.output := lit "NO";
            TestCase.explanation := Some
              (lit "We cannot divide 2 into two parts where each is " ++ [8805%N] ++ lit " 2") |} ];
     ProblemData.source := lit "Codeforces Round #4 (Div. 2)";
     ProblemData.difficulty := Some (lit "800") |}.

(** What the provider and [handleCopyTestCase] do beyond the effects of
    the test runner. *)
Inductive ViewEffect :=
| Handled (e : Effect)
| ClipboardWrite (text : jsstring)
| CreatePanel
| RevealPanel
| SetHtml (problem : ProblemData.t).

Definition clipboardMark : jsstring := [55357%N; 56523%N].

(** [handleCopyTestCase] of the handler; [clipboardWrites] tells whether
    the awaited [writeText] succeeds. *)
Definition handleCopyTestCase (clipboardWrites : bool)
    (testCase : TestCase.t) : list ViewEffect :=
  ClipboardWrite
    (lit "Input:" ++ [nl] ++ TestCase.input testCase ++ [nl; nl]
     ++ lit "Output:" ++ [nl] ++ TestCase.output testCase)
  :: (if clipboardWrites
      then [Handled (ShowInformationMessage
                       (clipboardMark
                        ++ lit " Test case copied to clipboard!"))]
      else []).

(** The fields of [ProblemWebviewProvider] that change: whether a panel
    exists, and the problem shown last. *)
Record Provider := {
  panel : bool;
  currentProblemData : option ProblemData.t
}.

(** What the provider relies on: the host of the handler, the scraper's
    [extractProblemData], the clipboard, and [handleGenerateScript], taken
    as given. *)
Record Desk := {
  deskHost : Host;
  extractProblemData : jsstring -> Outcome ProblemData.t;
  clipboardWrites : bool;
  handleGenerateScript : option ProblemData.t -> list ViewEffect
}.

(** A message posted by the webview. *)
Record Message := {
  command : jsstring;
  testCase : TestCase.t
}.

(** [showProblem], run without interruption: the provider afterwards, what
    was done, and how the returned promise ends. *)
Definition showProblem (desk : Desk) (this : Provider)
    (problemUrl : option jsstring)
    : Provider * list ViewEffect * Outcome unit :=
  let opened := if panel this then [RevealPanel] else [CreatePanel] in
  let loaded :=
    match problemUrl with
    | Some (c :: url) => extractProblemData desk (c :: url)
    | Some [] | None => Resolved getDummyProblemData
    end in
  match loaded with
  | Resolved problemData =>
      ({| panel := true; currentProblemData := Some problemData |},
       opened ++ [SetHtml problemData], Resolved tt)
  | Rejected e =>
      ({| panel := true; currentProblemData := currentProblemData this |},
       opened, Rejected e)
  | Pending =>
      ({| panel := true; currentProblemData := currentProblemData this |},
       opened, Pending)
  end.

(** The listener of [onDidDispose]. *)
Definition onDidDispose (this : Provider) : Provider :=
  {| panel := false; currentProblemData := currentProblemData this |}.

(** The listener of [onDidReceiveMessage]. *)
Definition onDidReceiveMessage (desk : Desk) (this : Provider)
    (message : Message) : list ViewEffect :=
  if Js.eqb (command message) (lit "runTests") then
    List.map Handled
      (handleRunTests (deskHost desk) (currentProblemData this))
  else if Js.eqb (command message) (lit "generateScript") then
    handleGenerateScript desk (currentProblemData this)
  else if Js.eqb (command message) (lit "copyTestCase") then
    handleCopyTestCase (clipboardWrites desk) (testCase message)
  else [].

(** The effects of the test runner among those of the view. *)
Definition handledOf (effects : list ViewEffect) : list Effect :=
  List.flat_map
    (fun e => match e with Handled e => [e] | _ => [] end) effects.

Definition runTestsMessage : Message :=
  {| command := lit "runTests"; testCase := sampleCase |}.

(** A desk for examples: the one URL it knows loads [sampleProblem]. *)
Definition sampleUrl : jsstring :=
  lit "https://codeforces.com/problemset/problem/4/A".

Definition invalidUrl : Thrown :=
  ErrorObject (lit "Invalid Codeforces problem URL format").

Definition sampleDesk : Desk :=
  {| deskHost := sampleHost (lit "solution.cpp") None (fun _ => printsYes);
     extractProblemData := fun url =>
       if Js.eqb url sampleUrl then Resolved sampleProblem
       else Rejected invalidUrl;
     clipboardWrites := true;
     handleGenerateScript := fun _ => [] |}.

Definition freshProvider : Provider :=
  {| panel := false; currentProblemData := None |}.

(** ** Facts about the string operations *)

Section StringFacts.

Lemma nl_isWhiteSpace : isWhiteSpace nl = true.
Proof. reflexivity. Qed.

Lemma split_not_nil (s : jsstring) : split s <> [].
Proof.
  destruct s as [|c s]; simpl; [discriminate|].
  destruct (c =? nl)%N; [discriminate|].
  destruct (split s); discriminate.
Qed.

Lemma split_no_nl (s : jsstring) : Forall (fun l => ~ In nl l) (split s).
Proof.
  induction s as [|c s IH]; simpl.
  - constructor; [intros []|constructor].
  - destruct (N.eqb_spec c nl) as [->|Hc].
    + constructor; [intros []|exact IH].
    + destruct (split s) as [|l ls]; inversion IH; subst.
      * constructor; [|constructor]. intros [H|[]]; congruence.
      * constructor; [|assumption]. intros [H|H]; [congruence|tauto].
Qed.

Lemma join_cons (l : jsstring) (ls : list jsstring) :
  ls <> [] -> join (l :: ls) = l ++ nl :: join ls.
Proof. destruct ls; [congruence|reflexivity]. Qed.

Lemma join_split (s : jsstring) : join (split s) = s.
Proof.
  induction s as [|c s IH]; simpl; [reflexivity|].
  destruct (N.eqb_spec c nl) as [->|Hc].
  - rewrite join_cons by apply split_not_nil. simpl. now rewrite IH.
  - pose proof (split_not_nil s) as Hne.
    destruct (split s) as [|l ls]; [congruence|].
    destruct ls as [|l' ls]; simpl in *; now rewrite <- IH.
Qed.

Lemma split_line (l : jsstring) : ~ In nl l -> split l = [l].
Proof.
  induction l as [|c l IH]; simpl; intros H; [reflexivity|].
  destruct (N.eqb_spec c nl) as [->|Hc]; [tauto|].
  rewrite IH by tauto. reflexivity.
Qed.

Lemma split_app_nl (l rest : jsstring) :
  ~ In nl l -> split (l ++ nl :: rest) = l :: split rest.
Proof.
  induction l as [|c l IH]; simpl; intros H.
  - reflexivity.
  - destruct (N.eqb_spec c nl) as [->|Hc]; [tauto|].
    rewrite IH by tauto. reflexivity.
Qed.

Lemma split_join (ls : list jsstring) :
  ls <> [] -> Forall (fun l => ~ In nl l) ls -> split (join ls) = ls.
Proof.
  induction ls as [|l ls IH]; intros Hne Hall; [congruence|].
  inversion Hall as [|? ? Hl Hls]; subst.
  destruct ls as [|l' ls].
  - simpl. now apply split_line.
  - rewrite join_cons by discriminate.
    rewrite split_app_nl by assumption.
    rewrite IH; [reflexivity|discriminate|assumption].
Qed.

Lemma trimEnd_In (c : codeUnit) (s : jsstring) : In c (trimEnd s) -> In c s.
Proof.
  induction s as [|d s IH]; simpl; [tauto|].
  destruct (trimEnd s) as [|e r].
  - destruct (isWhiteSpace d); simpl; tauto.
  - simpl in *. tauto.
Qed.

Lemma trimStart_In (c : codeUnit) (s : jsstring) :
  In c (trimStart s) -> In c s.
Proof.
  induction s as [|d s IH]; simpl; [tauto|].
  destruct (isWhiteSpace d); simpl; tauto.
Qed.

Lemma trimEnd_idempotent (s : jsstring) : trimEnd (trimEnd s) = trimEnd s.
Proof.
  induction s as [|c s IH]; simpl; [reflexivity|].
  destruct (trimEnd s) as [|e r] eqn:E.
  - destruct (isWhiteSpace c) eqn:W; simpl; [reflexivity|now rewrite W].
  - change (trimEnd (c :: e :: r)) with
      (match trimEnd (e :: r) with
       | [] => if isWhiteSpace c then [] else [c]
       | x => c :: x
       end).
    now rewrite IH.
Qed.

Lemma trimEnd_app (a b : jsstring) :
  trimEnd (a ++ b) =
  match trimEnd b with [] => trimEnd a | _ :: _ => a ++ trimEnd b end.
Proof.
  induction a as [|c a IH]; simpl.
  - now destruct (trimEnd b).
  - rewrite IH. destruct (trimEnd b) as [|e r]; [reflexivity|].
    now destruct a.
Qed.

Lemma trimStart_app (a b : jsstring) :
  trimStart (a ++ b) =
  match trimStart a with [] => trimStart b | _ :: _ => trimStart a ++ b end.
Proof.
  induction a as [|c a IH]; simpl; [reflexivity|].
  destruct (isWhiteSpace c); [exact IH|reflexivity].
Qed.

(** A string without trailing white space keeps that property when
    characters are removed at its start. *)
Lemma trimEnd_fixed_tail (c : codeUnit) (s : jsstring) :
  trimEnd (c :: s) = c :: s -> trimEnd s = s.
Proof.
  simpl. destruct (trimEnd s) as [|e r].
  - destruct (isWhiteSpace c); [discriminate|]. now intros [= <-].
  - now intros [= <-].
Qed.

Lemma trimEnd_fixed_trimStart (s : jsstring) :
  trimEnd s = s -> trimEnd (trimStart s) = trimStart s.
Proof.
  induction s as [|c s IH]; intros H; simpl; [reflexivity|].
  destruct (isWhiteSpace c); [|exact H].
  apply IH. now apply trimEnd_fixed_tail with c.
Qed.

Lemma trimStart_head (s : jsstring) :
  match trimStart s with [] => True | c :: _ => isWhiteSpace c = false end.
Proof.
  induction s as [|c s IH]; simpl; [exact I|].
  destruct (isWhiteSpace c) eqn:W; [exact IH|exact W].
Qed.

Lemma trimStart_trimEnd_fixed (s : jsstring) :
  trimStart s = s -> trimStart (trimEnd s) = trimEnd s.
Proof.
  destruct s as [|c s]; [reflexivity|]. simpl.
  destruct (isWhiteSpace c) eqn:W.
  - intros H. exfalso.
    assert (L : forall t : jsstring,
               (List.length (trimStart t) <= List.length t)%nat).
    { induction t as [|d t IHt]; simpl; [lia|].
      destruct (isWhiteSpace d); simpl; lia. }
    specialize (L s). rewrite H in L. simpl in L. lia.
  - intros _. destruct (trimEnd s); simpl; now rewrite W.
Qed.

Lemma trimStart_idempotent (s : jsstring) :
  trimStart (trimStart s) = trimStart s.
Proof.
  induction s as [|c s IH]; simpl; [reflexivity|].
  destruct (isWhiteSpace c) eqn:W; [exact IH|]. simpl. now rewrite W.
Qed.

Lemma trim_idempotent (s : jsstring) : trim (trim s) = trim s.
Proof.
  unfold trim.
  rewrite (trimStart_trimEnd_fixed (trimStart s))
    by apply trimStart_idempotent.
  apply trimEnd_idempotent.
Qed.

End StringFacts.

(** ** Facts about [normalizeOutput] *)

Section NormalizeFacts.

Lemma trimmedLines_split (s : jsstring) :
  trimmedLines (List.map trimEnd (split s)).
Proof.
  unfold trimmedLines. rewrite Forall_map.
  eapply Forall_impl; [|apply split_no_nl].
  intros l Hl. split; [apply trimEnd_idempotent|].
  intros H. apply Hl. now apply trimEnd_In.
Qed.

Lemma trimmedLines_relined (ls : list jsstring) :
  trimmedLines ls -> join (List.map trimEnd (split (join ls))) = join ls.
Proof.
  intros H. destruct ls as [|l ls]; [reflexivity|].
  rewrite split_join.
  - f_equal. rewrite <- (map_id (l :: ls)) at 2.
    apply map_ext_in. intros x Hx.
    unfold trimmedLines in H. rewrite Forall_forall in H.
    now apply H.
  - discriminate.
  - eapply Forall_impl; [|exact H]. intros x Hx. apply Hx.
Qed.

Lemma trimStart_nil_trimEnd (l : jsstring) : trimStart l = [] -> trimEnd l = [].
Proof.
  induction l as [|c l IH]; simpl; [reflexivity|].
  destruct (isWhiteSpace c); [|discriminate].
  intros H. now rewrite IH.
Qed.

Lemma trimStart_join (ls : list jsstring) :
  trimmedLines ls ->
  exists ls', trimStart (join ls) = join ls' /\ trimmedLines ls'.
Proof.
  induction ls as [|l ls IH]; intros H.
  - exists []. split; [reflexivity|constructor].
  - inversion H as [|? ? [Hl Hnl] Hls]; subst.
    destruct ls as [|l' ls].
    + exists [trimStart l]. split; [reflexivity|].
      constructor; [|constructor]. split.
      * now apply trimEnd_fixed_trimStart.
      * intros Hin. apply Hnl. now apply trimStart_In.
    + rewrite join_cons by discriminate. rewrite trimStart_app.
      destruct (trimStart l) as [|c r] eqn:E.
      * simpl. apply IH. exact Hls.
      * exists ((c :: r) :: l' :: ls). split.
        -- now rewrite (join_cons (c :: r)) by discriminate.
        -- constructor; [|exact Hls]. rewrite <- E. split.
           ++ now apply trimEnd_fixed_trimStart.
           ++ intros Hin. apply Hnl. now apply trimStart_In.
Qed.

Lemma dropBlankEnd_trimmedLines (ls : list jsstring) :
  trimmedLines ls -> trimmedLines (dropBlankEnd ls).
Proof.
  induction ls as [|l ls IH]; intros H; [constructor|].
  inversion H as [|? ? Hl Hls]; subst. simpl.
  specialize (IH Hls).
  destruct (dropBlankEnd ls) as [|r rs].
  - destruct (blank l); [constructor|]. constructor; [exact Hl|constructor].
  - constructor; assumption.
Qed.

Lemma dropBlankStart_trimmedLines (ls : list jsstring) :
  trimmedLines ls -> trimmedLines (dropBlankStart ls).
Proof.
  induction ls as [|l ls IH]; intros H; [constructor|].
  inversion H as [|? ? Hl Hls]; subst. simpl.
  destruct (blank l); [now apply IH|exact H].
Qed.

Lemma join_dropBlankEnd_nil (ls : list jsstring) :
  join (dropBlankEnd ls) = [] -> dropBlankEnd ls = [].
Proof.
  induction ls as [|l ls IH]; simpl; [reflexivity|].
  destruct (dropBlankEnd ls) as [|r rs].
  - unfold blank. destruct (trimEnd l) eqn:E; [reflexivity|].
    simpl. intros ->. discriminate.
  - rewrite join_cons by discriminate. intros H.
    symmetry in H. now apply app_cons_not_nil in H.
Qed.

Lemma trimEnd_join (ls : list jsstring) :
  trimmedLines ls -> trimEnd (join ls) = join (dropBlankEnd ls).
Proof.
  induction ls as [|l ls IH]; intros H; [reflexivity|].
  inversion H as [|? ? [Hl Hnl] Hls]; subst.
  specialize (IH Hls).
  assert (B : blank l = true -> l = []).
  { unfold blank. rewrite Hl. now destruct l. }
  destruct ls as [|l' ls].
  - simpl. rewrite Hl. destruct (blank l) eqn:E; [now apply B|reflexivity].
  - rewrite join_cons by discriminate. rewrite trimEnd_app.
    change (trimEnd (nl :: join (l' :: ls))) with
      (match trimEnd (join (l' :: ls)) with
       | [] => if isWhiteSpace nl then [] else [nl]
       | r => nl :: r
       end).
    rewrite IH, nl_isWhiteSpace.
    change (dropBlankEnd (l :: l' :: ls)) with
      (match dropBlankEnd (l' :: ls) with
       | [] => if blank l then [] else [l]
       | r => l :: r
       end).
    pose proof (join_dropBlankEnd_nil (l' :: ls)) as N.
    destruct (dropBlankEnd (l' :: ls)) as [|r rs].
    + simpl. rewrite Hl.
      destruct (blank l) eqn:E; [now apply B|reflexivity].
    + destruct (join (r :: rs)) as [|c j] eqn:J.
      * specialize (N eq_refl). discriminate.
      * rewrite join_cons by discriminate. now rewrite J.
Qed.

Lemma trimStart_dropBlankStart (ls : list jsstring) :
  trimmedLines ls ->
  trimStart (join ls) = trimStart (join (dropBlankStart ls)).
Proof.
  induction ls as [|l ls IH]; intros H; [reflexivity|].
  inversion H as [|? ? [Hl Hnl] Hls]; subst.
  simpl dropBlankStart. destruct (blank l) eqn:E; [|reflexivity].
  assert (l = []) as ->.
  { unfold blank in E. rewrite Hl in E. now destruct l. }
  rewrite <- IH by assumption.
  destruct ls as [|l' ls]; [reflexivity|].
  rewrite join_cons by discriminate. reflexivity.
Qed.

Lemma trimEnd_trimStart_comm (s : jsstring) :
  trimEnd (trimStart s) = trimStart (trimEnd s).
Proof.
  induction s as [|c s IH]; [reflexivity|].
  cbn [trimStart trimEnd].
  destruct (isWhiteSpace c) eqn:W.
  - rewrite IH. destruct (trimEnd s) as [|e r]; cbn [trimStart].
    + reflexivity.
    + now rewrite W.
  - cbn [trimEnd]. destruct (trimEnd s); cbn [trimStart]; now rewrite W.
Qed.

(** The source's normalisation is the specified one followed by the removal
    of the white space that starts the first line kept. *)
Lemma normalizeOutput_normalizeAsSpecified (s : jsstring) :
  normalizeOutput s = trimStart (normalizeAsSpecified s).
Proof.
  unfold normalizeOutput, normalizeAsSpecified, trim.
  pose proof (trimmedLines_split s) as H.
  rewrite trimEnd_trimStart_comm, (trimEnd_join _ H).
  apply trimStart_dropBlankStart. now apply dropBlankEnd_trimmedLines.
Qed.

(** [normalizeOutput] leaves its own results unchanged. *)
Lemma normalizeOutput_fixed (s : jsstring) :
  normalizeOutput (normalizeOutput s) = normalizeOutput s.
Proof.
  unfold normalizeOutput at 2 3. unfold trim.
  destruct (trimStart_join _ (trimmedLines_split s)) as (ls & E & H).
  rewrite E, (trimEnd_join _ H).
  unfold normalizeOutput. 
  rewrite (trimmedLines_relined _ (dropBlankEnd_trimmedLines _ H)).
  rewrite <- (trimEnd_join _ H), <- E.
  apply (trim_idempotent (join (List.map trimEnd (split s)))).
Qed.

End NormalizeFacts.

(** ** Facts about one run of [runSingleTest] *)

Section RunFacts.

Variable testCase : TestCase.t.
Variable testNumber : nat.
Variable start : Z.


Lemma deliverAll_cons (ev : Event) (events : list Event) (st : Run) :
  deliverAll testCase testNumber start (ev :: events) st
  = deliverAll testCase testNumber start events
      (deliver testCase testNumber start st ev).
Proof. reflexivity. Qed.

Lemma deliverAll_app (pre post : list Event) (st : Run) :
  deliverAll testCase testNumber start (pre ++ post) st
  = deliverAll testCase testNumber start post
      (deliverAll testCase testNumber start pre st).
Proof. apply fold_left_app. Qed.

Lemma promise_resolve (r : TestResult.t) (st : Run) :
  promise (resolve r st) =
  match promise st with Some x => Some x | None => Some r end.
Proof. unfold resolve. now destruct (promise st) eqn:E; simpl. Qed.

Lemma effects_resolve (r : TestResult.t) (st : Run) :
  effects (resolve r st) = effects st.
Proof. unfold resolve. now destruct (promise st). Qed.

(** Events that do not settle only fill the buffers and raise faults. *)
Lemma deliverAll_quiet (pre : list Event) (st : Run) :
  Forall (fun ev => settles ev = false) pre ->
  deliverAll testCase testNumber start pre st =
  {| stdout := stdout st ++ stdoutOf pre;
     stderr := stderr st ++ stderrOf pre;
     timeoutPending := timeoutPending st;
     promise := promise st;
     effects := effects st ++ faultsOf pre |}.
Proof.
  intros H. revert st.
  induction H as [|ev pre Hev _ IH]; intros st.
  - destruct st; simpl. now rewrite !app_nil_r.
  - rewrite deliverAll_cons, IH.
    destruct ev; try discriminate; simpl; now rewrite <- ?app_assoc.
Qed.

(** Only the first [resolve] counts. *)
Lemma deliverAll_settled (events : list Event) (st : Run) (r : TestResult.t) :
  promise st = Some r ->
  promise (deliverAll testCase testNumber start events st) = Some r.
Proof.
  revert st.
  induction events as [|ev events IH]; intros st H; [exact H|].
  rewrite deliverAll_cons. apply IH.
  destruct ev; simpl; try exact H.
  - destruct (timeoutPending st); [|exact H].
    rewrite promise_resolve. simpl. now rewrite H.
  - rewrite promise_resolve. simpl. now rewrite H.
Qed.

(** The callbacks add nothing but [Kill], [ClearTimeout] and faults. *)
Lemma deliverAll_effects (events : list Event) (st : Run) :
  exists tail,
    effects (deliverAll testCase testNumber start events st)
    = effects st ++ tail
    /\ forallb isReaction tail = true.
Proof.
  revert st.
  induction events as [|ev events IH]; intros st.
  - exists []. now rewrite app_nil_r.
  - rewrite deliverAll_cons.
    destruct (IH (deliver testCase testNumber start st ev)) as (tail & E & R).
    rewrite E. clear E IH.
    destruct ev; simpl.
    + now exists tail.
    + now exists tail.
    + destruct (timeoutPending st).
      * rewrite effects_resolve. simpl. exists (Kill :: tail).
        now rewrite <- app_assoc.
      * now exists tail.
    + rewrite effects_resolve. simpl. exists (ClearTimeout :: tail).
      now rewrite <- app_assoc.
    + exists (UncaughtException e :: tail). now rewrite <- app_assoc.
Qed.

Lemma settles_settlement (pre : list Event) (ev : Event) :
  settles ev = true ->
  exists r, settlement testCase testNumber start pre ev = Some r.
Proof. destruct ev; try discriminate; intros _; eexists; reflexivity. Qed.

Lemma settles_split (events : list Event) :
  existsb settles events = true ->
  exists pre ev post,
    events = pre ++ ev :: post
    /\ Forall (fun e => settles e = false) pre
    /\ settles ev = true.
Proof.
  induction events as [|e events IH]; simpl; [discriminate|].
  destruct (settles e) eqn:S; simpl.
  - intros _. exists [], e, events. repeat split; [constructor|exact S].
  - intros H. destruct (IH H) as (pre & ev & post & -> & Q & T).
    exists (e :: pre), ev, post. repeat split; [now constructor|exact T].
Qed.

Lemma settles_none (events : list Event) :
  existsb settles events = false ->
  Forall (fun e => settles e = false) events.
Proof.
  induction events as [|e events IH]; simpl; [constructor|].
  destruct (settles e) eqn:S; simpl; [discriminate|].
  intros H. constructor; [exact S|now apply IH].
Qed.

(** The promise is settled by the first settling event, with the buffers as
    they are at that moment. *)
Lemma runSingleTest_settlement (executablePath : jsstring)
    (pre : list Event) (ev : Event) (post : list Event) (r : TestResult.t) :
  Forall (fun e => settles e = false) pre ->
  settlement testCase testNumber start pre ev = Some r ->
  fst (runSingleTest executablePath testCase testNumber
         {| startTime := start; launch := Spawned (pre ++ ev :: post) |})
  = Resolved r.
Proof.
  intros Q S. unfold runSingleTest. cbn [launch startTime fst snd].
  rewrite deliverAll_app, deliverAll_cons, (deliverAll_quiet _ _ Q).
  rewrite (deliverAll_settled _ _ r); [reflexivity|].
  destruct ev; try discriminate; simpl in S; injection S as <-;
    reflexivity.
Qed.

Lemma runSingleTest_kills (executablePath : jsstring)
    (pre : list Event) (now : Z) (post : list Event) :
  Forall (fun e => settles e = false) pre ->
  In Kill (snd (runSingleTest executablePath testCase testNumber
                  {| startTime := start;
                     launch := Spawned (pre ++ TimerFires now :: post) |})).
Proof.
  intros Q. unfold runSingleTest. cbn [launch startTime fst snd].
  rewrite deliverAll_app, deliverAll_cons, (deliverAll_quiet _ _ Q).
  match goal with
  | |- In Kill (effects (deliverAll testCase testNumber start post ?st)) =>
      destruct (deliverAll_effects post st) as (tail & -> & _)
  end.
  apply in_or_app. left. simpl. rewrite ?in_app_iff. simpl. tauto.
Qed.

Lemma settlement_resultFor (pre : list Event) (ev : Event) (r : TestResult.t) :
  settlement testCase testNumber start pre ev = Some r ->
  resultFor testCase testNumber r.
Proof.
  destruct ev as [| |now|code now|]; try discriminate;
    simpl; intros [= <-]; unfold resultFor.
  - simpl. repeat split; discriminate.
  - unfold closeResult. destruct code as [code|].
    + destruct (code =? 0)%Z; simpl.
      * destruct (compareOutputs _ _); repeat split; congruence.
      * repeat split; discriminate.
    + simpl. repeat split; discriminate.
Qed.

Lemma runSingleTest_resultFor (executablePath : jsstring) (a : Attempt)
    (r : TestResult.t) :
  startTime a = start ->
  fst (runSingleTest executablePath testCase testNumber a) = Resolved r ->
  resultFor testCase testNumber r.
Proof.
  destruct a as [t0 [e|events]]; simpl startTime; intros ->.
  - discriminate.
  - destruct (existsb settles events) eqn:X.
    + destruct (settles_split _ X) as (pre & ev & post & -> & Q & T).
      destruct (settles_settlement pre ev T) as (r' & S).
      rewrite (runSingleTest_settlement _ _ _ _ _ Q S).
      intros [= <-]. eapply settlement_resultFor; eassumption.
    + unfold runSingleTest. cbn [launch startTime fst snd].
      rewrite (deliverAll_quiet _ _ (settles_none _ X)). discriminate.
Qed.

Lemma runSingleTest_settling (executablePath : jsstring) (a : Attempt) :
  startTime a = start ->
  settling a = true ->
  fst (runSingleTest executablePath testCase testNumber a) <> Pending.
Proof.
  destruct a as [t0 [e|events]]; simpl startTime; intros ->;
    unfold settling; simpl launch.
  - discriminate.
  - intros X.
    destruct (settles_split _ X) as (pre & ev & post & -> & Q & T).
    destruct (settles_settlement pre ev T) as (r' & S).
    rewrite (runSingleTest_settlement _ _ _ _ _ Q S). discriminate.
Qed.

(** The set-up comes first and is the same for every launched child. *)
Lemma runSingleTest_setup (executablePath : jsstring) (events : list Event) :
  exists tail,
    snd (runSingleTest executablePath testCase testNumber
           {| startTime := start; launch := Spawned events |})
    = [Spawn executablePath;
       StdinWrite (TestCase.input testCase ++ [nl]);
       StdinEnd;
       SetTimeout 5000] ++ tail
    /\ forallb isReaction tail = true.
Proof.
  unfold runSingleTest. cbn [launch startTime fst snd].
  destruct (deliverAll_effects events (spawned executablePath testCase))
    as (tail & E & R).
  exists tail. split; [exact E|exact R].
Qed.

Lemma untilSettled_split (pre : list Event) (ev : Event) (post : list Event) :
  Forall (fun e => settles e = false) pre ->
  settles ev = true ->
  untilSettled (pre ++ ev :: post) = pre ++ [ev].
Proof.
  intros Q T. induction Q as [|e pre He _ IH]; simpl.
  - now rewrite T.
  - now rewrite He, IH.
Qed.

Lemma untilSettled_quiet (events : list Event) :
  Forall (fun e => settles e = false) events ->
  untilSettled events = events.
Proof.
  intros Q. induction Q as [|e events He _ IH]; simpl; [reflexivity|].
  now rewrite He, IH.
Qed.

(** The [await] sees the result of the whole run. *)
Lemma runSingleTest_awaitedPart (executablePath : jsstring) (a : Attempt) :
  startTime a = start ->
  fst (runSingleTest executablePath testCase testNumber (awaitedPart a))
  = fst (runSingleTest executablePath testCase testNumber a).
Proof.
  destruct a as [t0 [e|events]]; simpl startTime; intros ->;
    [reflexivity|].
  unfold awaitedPart. cbn [launch startTime].
  destruct (existsb settles events) eqn:X.
  - destruct (settles_split _ X) as (pre & ev & post & -> & Q & T).
    destruct (settles_settlement pre ev T) as (r & S).
    rewrite (untilSettled_split _ _ _ Q T).
    rewrite (runSingleTest_settlement executablePath pre ev [] r Q S).
    now rewrite (runSingleTest_settlement executablePath pre ev post r Q S).
  - now rewrite (untilSettled_quiet _ (settles_none _ X)).
Qed.

End RunFacts.

(** ** Facts about the loop of [runTestCases] *)

Section SuiteFacts.

Variable executablePath : jsstring.
Variable world : nat -> Attempt.

Lemma caughtResult_resultFor (testCase : TestCase.t) (i : nat) (e : Thrown) :
  resultFor testCase (i + 1) (caughtResult testCase i e).
Proof. unfold resultFor. simpl. repeat split; discriminate. Qed.

Lemma pushed_resultFor (i : nat) (testCase : TestCase.t) (r : TestResult.t) :
  pushed executablePath world i testCase = Some r ->
  resultFor testCase (i + 1) r.
Proof.
  unfold pushed.
  destruct (fst (runSingleTest executablePath testCase (i + 1) (world i)))
    as [r'|e|] eqn:E; intros [= <-].
  - eapply runSingleTest_resultFor; [reflexivity|exact E].
  - apply caughtResult_resultFor.
Qed.

Lemma pushed_settling (i : nat) (testCase : TestCase.t) :
  settling (world i) = true ->
  exists r, pushed executablePath world i testCase = Some r.
Proof.
  intros Hs. unfold pushed.
  pose proof (runSingleTest_settling testCase (i + 1) (startTime (world i))
                executablePath (world i) eq_refl Hs) as N.
  destruct (fst (runSingleTest executablePath testCase (i + 1) (world i)));
    [eexists; reflexivity|eexists; reflexivity|congruence].
Qed.

Lemma runTestCasesFrom_cons (i : nat) (testCase : TestCase.t)
    (rest : list TestCase.t) (results : list TestResult.t) (log : list Effect) :
  runTestCasesFrom executablePath world i (testCase :: rest) results log =
  let done :=
    log ++ snd (runSingleTest executablePath testCase (i + 1)
                  (awaitedPart (world i))) in
  match pushed executablePath world i testCase with
  | Some r =>
      runTestCasesFrom executablePath world (S i) rest (results ++ [r]) done
  | None => (Pending, done)
  end.
Proof.
  unfold pushed.
  rewrite <- (runSingleTest_awaitedPart testCase (i + 1)
                (startTime (world i)) executablePath (world i) eq_refl).
  simpl.
  destruct (runSingleTest executablePath testCase (i + 1)
              (awaitedPart (world i)))
    as [[r|e|] eff]; reflexivity.
Qed.

(** What the loop returns is what it had, then one pushed result per
    remaining test case, in order. *)
Lemma runTestCasesFrom_shape (rest : list TestCase.t) :
  forall (i : nat) (results : list TestResult.t) (log : list Effect)
         (out : list TestResult.t),
    fst (runTestCasesFrom executablePath world i rest results log)
    = Resolved out ->
    exists rs,
      out = results ++ rs
      /\ List.length rs = List.length rest
      /\ forall k testCase,
           nth_error rest k = Some testCase ->
           nth_error rs k = pushed executablePath world (i + k) testCase.
Proof.
  induction rest as [|testCase rest IH]; intros i results log out.
  - simpl. intros [= <-]. exists []. rewrite app_nil_r.
    repeat split. intros [|k] tc; discriminate.
  - rewrite runTestCasesFrom_cons. cbv zeta.
    destruct (pushed executablePath world i testCase) as [r|] eqn:P;
      [|discriminate].
    intros H. destruct (IH _ _ _ _ H) as (rs & -> & L & N).
    exists (r :: rs). rewrite <- app_assoc. repeat split.
    + simpl. now rewrite L.
    + intros [|k] tc; simpl.
      * intros [= <-]. now rewrite Nat.add_0_r.
      * intros E. rewrite (N _ _ E). f_equal. lia.
Qed.

(** The loop returns when every attempt settles. *)
Lemma runTestCasesFrom_returns (rest : list TestCase.t) :
  forall (i : nat) (results : list TestResult.t) (log : list Effect),
    (forall k, k < List.length rest -> settling (world (i + k)) = true) ->
    exists out,
      fst (runTestCasesFrom executablePath world i rest results log)
      = Resolved out.
Proof.
  induction rest as [|testCase rest IH]; intros i results log Hs.
  - eexists. reflexivity.
  - rewrite runTestCasesFrom_cons. cbv zeta.
    destruct (pushed_settling i testCase) as (r & ->).
    + rewrite <- (Nat.add_0_r i). apply Hs. simpl. lia.
    + apply IH. intros k Hk.
      replace (S i + k) with (i + S k) by lia. apply Hs. simpl. lia.
Qed.

Lemma runSingleTest_timeout (testCase : TestCase.t) (n : nat) (a : Attempt)
    (ms : Z) :
  In (SetTimeout ms) (snd (runSingleTest executablePath testCase n a)) ->
  ms = 5000%Z.
Proof.
  destruct a as [t0 [e|events]].
  - simpl. intros [H|[]]. discriminate.
  - destruct (runSingleTest_setup testCase n t0 executablePath events)
      as (tail & -> & R).
    rewrite in_app_iff. intros [H|H].
    + simpl in H. destruct H as [H|[H|[H|[H|[]]]]]; try discriminate.
      now injection H as <-.
    + rewrite forallb_forall in R. specialize (R _ H). discriminate.
Qed.

Lemma runTestCasesFrom_timeout (rest : list TestCase.t) :
  forall (i : nat) (results : list TestResult.t) (log : list Effect) (ms : Z),
    In (SetTimeout ms)
       (snd (runTestCasesFrom executablePath world i rest results log)) ->
    In (SetTimeout ms) log \/ ms = 5000%Z.
Proof.
  induction rest as [|testCase rest IH]; intros i results log ms.
  - simpl. tauto.
  - rewrite runTestCasesFrom_cons. cbv zeta.
    assert (D : In (SetTimeout ms)
                  (log ++ snd (runSingleTest executablePath testCase (i + 1)
                                 (awaitedPart (world i)))) ->
                In (SetTimeout ms) log \/ ms = 5000%Z).
    { rewrite in_app_iff. intros [H|H]; [now left|right].
      eapply runSingleTest_timeout; eassumption. }
    destruct (pushed executablePath world i testCase) as [r|].
    + intros H. destruct (IH _ _ _ _ H) as [H'|H']; [now apply D|now right].
    + exact D.
Qed.

End SuiteFacts.

(** An index that is in range of one list and out of range of another of
    the same length. *)
Ltac out_of_range :=
  match goal with
  | E : nth_error ?l ?k = Some _, T : nth_error ?l' ?k = None |- _ =>
      apply nth_error_None in T;
      assert (nth_error l k <> None) as ?X by congruence;
      apply nth_error_Some in X; lia
  end.

(** The fields of a complete report, read off [runTestCasesFrom_shape]. *)
Lemma pushed_list_fields (executablePath : jsstring) (world : nat -> Attempt)
    (i : nat) (rest : list TestCase.t) (rs : list TestResult.t) :
  List.length rs = List.length rest ->
  (forall k testCase,
      nth_error rest k = Some testCase ->
      nth_error rs k = pushed executablePath world (i + k) testCase) ->
  List.map TestResult.testNumber rs = seq (i + 1) (List.length rest)
  /\ List.map TestResult.input rs = List.map TestCase.input rest
  /\ List.map TestResult.expectedOutput rs = List.map TestCase.output rest
  /\ Forall passedIffNoError rs.
Proof.
  intros L N.
  assert (F : forall k r, nth_error rs k = Some r ->
              exists testCase, nth_error rest k = Some testCase
                               /\ resultFor testCase (i + k + 1) r).
  { intros k r E.
    destruct (nth_error rest k) as [tc|] eqn:T.
    - exists tc. split; [reflexivity|].
      apply (pushed_resultFor executablePath world). now rewrite <- (N _ _ T).
    - out_of_range. }
  repeat split.
  - apply nth_error_ext. intros k.
    rewrite nth_error_map, nth_error_seq.
    destruct (nth_error rs k) as [r|] eqn:E; simpl.
    + destruct (F _ _ E) as (tc & T & (-> & _)).
      assert (nth_error rest k <> None) as X by congruence.
      apply nth_error_Some in X.
      destruct (Nat.ltb_spec k (List.length rest)); [f_equal; lia|lia].
    + apply nth_error_None in E.
      destruct (Nat.ltb_spec k (List.length rest)); [lia|reflexivity].
  - apply nth_error_ext. intros k. rewrite !nth_error_map.
    destruct (nth_error rs k) as [r|] eqn:E; simpl.
    + destruct (F _ _ E) as (tc & -> & (_ & -> & _)). reflexivity.
    + destruct (nth_error rest k) eqn:T; [out_of_range|reflexivity].
  - apply nth_error_ext. intros k. rewrite !nth_error_map.
    destruct (nth_error rs k) as [r|] eqn:E; simpl.
    + destruct (F _ _ E) as (tc & -> & (_ & _ & -> & _)). reflexivity.
    + destruct (nth_error rest k) eqn:T; [out_of_range|reflexivity].
  - apply Forall_forall. intros r Hin.
    destruct (In_nth_error _ _ Hin) as (k & E).
    destruct (F _ _ E) as (tc & _ & (_ & _ & _ & P)). exact P.
Qed.

(** ** The scenarios of the specification, evaluated *)

Example normalizeOutput_final_newline :
  normalizeOutput (lit "8" ++ [nl]) = normalizeOutput (lit "8").
Proof. reflexivity. Qed.

Example normalizeOutput_trailing_spaces :
  normalizeOutput (lit "8 " ++ [nl] ++ lit "8" ++ [nl])
  = normalizeOutput (lit "8" ++ [nl] ++ lit "8").
Proof. reflexivity. Qed.

Example normalizeOutput_order_matters :
  normalizeOutput (lit "8" ++ [nl] ++ lit "9")
  <> normalizeOutput (lit "9" ++ [nl] ++ lit "8").
Proof. discriminate. Qed.

Example normalizeOutput_carriage_return :
  normalizeOutput (lit "YES" ++ [13%N; nl] ++ lit "NO" ++ [13%N; nl])
  = lit "YES" ++ [nl] ++ lit "NO".
Proof. reflexivity. Qed.

Example suite_accepted_then_timeout :
  fst (runTestCases sampleExecutable [sampleCase; sampleCase]
         (fun i => match i with 0 => printsYes | _ => loopsForever end))
  = Resolved
      [ {| TestResult.testNumber := 1;
           TestResult.passed := true;
           TestResult.input := lit "8";
           TestResult.expectedOutput := lit "YES";
           TestResult.actualOutput := lit "YES" ++ [nl];
           TestResult.error := None;
           TestResult.executionTime := 12 |};
        {| TestResult.testNumber := 2;
           TestResult.passed := false;
           TestResult.input := lit "8";
           TestResult.expectedOutput := lit "YES";
           TestResult.actualOutput := lit "NO";
           TestResult.error := Some (lit "Time Limit Exceeded");
           TestResult.executionTime := 5001 |} ].
Proof. reflexivity. Qed.

Example runtime_error_text :
  TestResult.error
    (closeResult sampleCase 1 1000 (lit "YES") (lit "segfault") (Some 139%Z)
       1003)
  = Some (lit "Runtime Error (Exit code: 139)" ++ [nl] ++ lit "segfault").
Proof. reflexivity. Qed.

(** ** The verdict of one test case *)

(** The rules by which the source decides, in its order: the promise of
    [runSingleTest] is settled by the first of the timer callback and the
    ['close'] listener; timer first gives "Time Limit Exceeded"; otherwise a
    null exit code gives the "terminated unexpectedly" failure; otherwise a
    nonzero code [n] gives "Runtime Error (Exit code: n)" whatever was
    printed, and never "Wrong Answer"; otherwise the result passes exactly
    when [normalizeOutput] of the standard output equals [normalizeOutput]
    of the expected output, and is "Wrong Answer" when it does not. *)
Lemma runSingleTest_rules_as_coded
    (executablePath : jsstring) (testCase : TestCase.t) (testNumber : nat)
    (start : Z) (pre : list Event) (ev : Event) (post : list Event)
    (status : ExitStatus) :
  Forall (fun e => settles e = false) pre ->
  exitStatus ev = Some status ->
  exists r,
    fst (runSingleTest executablePath testCase testNumber
           {| startTime := start; launch := Spawned (pre ++ ev :: post) |})
    = Resolved r
    /\ match status with
       | TimedOut => timeLimitExceeded r
       | Killed => terminatedUnexpectedly (stderrOf pre) r
       | ExitedWithCode n =>
           if (n =? 0)%Z then
             if Js.eqb (normalizeOutput (stdoutOf pre))
                       (normalizeOutput (TestCase.output testCase))
             then accepted r
             else wrongAnswer r
           else runtimeError n (stderrOf pre) r /\ ~ wrongAnswer r
       end.
Proof.
  intros Q E.
  destruct ev as [| |now|[n|] now|]; try discriminate;
    simpl in E; injection E as <-.
  - eexists. split.
    + apply runSingleTest_settlement; [exact Q|reflexivity].
    + split; reflexivity.
  - eexists. split.
    + apply runSingleTest_settlement; [exact Q|reflexivity].
    + unfold closeResult, compareOutputs.
      destruct (n =? 0)%Z; cbn [negb].
      * destruct (Js.eqb _ _); split; reflexivity.
      * split; [split; reflexivity|].
        intros [_ W]. cbn in W. discriminate.
  - eexists. split.
    + apply runSingleTest_settlement; [exact Q|reflexivity].
    + split; reflexivity.
Qed.

Lemma runSingleTest_rules_as_coded_witness :
  Forall (fun e => settles e = false) [StdoutData (lit "YES" ++ [nl])]
  /\ exitStatus (Close (Some 0%Z) 1012) = Some (ExitedWithCode 0)
  /\ exists r,
       fst (runSingleTest sampleExecutable sampleCase 1
              {| startTime := 1000;
                 launch := Spawned ([StdoutData (lit "YES" ++ [nl])]
                                    ++ Close (Some 0%Z) 1012 :: []) |})
       = Resolved r
       /\ accepted r.
Proof.
  split; [repeat constructor|]. split; [reflexivity|].
  apply (runSingleTest_rules_as_coded sampleExecutable sampleCase 1 1000
           [StdoutData (lit "YES" ++ [nl])] (Close (Some 0%Z) 1012) []
           (ExitedWithCode 0)); [repeat constructor|reflexivity].
Defined.

(** C1. The fourth rule is not the one the source applies.  A child that
    prints ["  8"] and exits with code 0 is accepted against the expected
    output ["8"], although the two texts differ once normalised as
    specified: the source compares with [normalizeOutput], which also
    removes the white space that starts the first line. *)
Theorem runSingleTest_accepts_indented_output :
  exists r,
    fst (runSingleTest sampleExecutable eightCase 1 printsIndented)
    = Resolved r
    /\ accepted r
    /\ exitStatus (Close (Some 0%Z) 1012) = Some (ExitedWithCode 0)
    /\ stdoutOf [StdoutData (lit "  8")] = lit "  8"
    /\ normalizeAsSpecified (lit "  8")
       <> normalizeAsSpecified (TestCase.output eightCase).
Proof.
  eexists. split; [reflexivity|].
  split; [split; reflexivity|]. split; [reflexivity|].
  split; [reflexivity|]. discriminate.
Qed.

(** C3. When the timer callback runs before the child has closed, the child
    is killed, the result is "Time Limit Exceeded", and its [actualOutput]
    is the standard output received before the timer fired, without what
    arrives afterwards. *)
Theorem runSingleTest_timer_first
    (executablePath : jsstring) (testCase : TestCase.t) (testNumber : nat)
    (start : Z) (pre : list Event) (now : Z) (post : list Event) :
  Forall (fun e => settles e = false) pre ->
  exists r,
    fst (runSingleTest executablePath testCase testNumber
           {| startTime := start;
              launch := Spawned (pre ++ TimerFires now :: post) |})
    = Resolved r
    /\ timeLimitExceeded r
    /\ TestResult.actualOutput r = stdoutOf pre
    /\ In Kill
         (snd (runSingleTest executablePath testCase testNumber
                 {| startTime := start;
                    launch := Spawned (pre ++ TimerFires now :: post) |})).
Proof.
  intros Q. eexists. split; [|split; [|split]].
  - apply runSingleTest_settlement; [exact Q|reflexivity].
  - split; reflexivity.
  - reflexivity.
  - now apply runSingleTest_kills.
Qed.

Lemma runSingleTest_timer_first_witness :
  Forall (fun e => settles e = false) [StdoutData (lit "NO")]
  /\ exists r,
       fst (runSingleTest sampleExecutable sampleCase 1
              {| startTime := 1000;
                 launch := Spawned ([StdoutData (lit "NO")]
                                    ++ TimerFires 6001
                                    :: [StdoutData (lit "PE"); Close None 6003]) |})
       = Resolved r
       /\ timeLimitExceeded r
       /\ TestResult.actualOutput r = stdoutOf [StdoutData (lit "NO")]
       /\ In Kill
            (snd (runSingleTest sampleExecutable sampleCase 1
                    {| startTime := 1000;
                       launch := Spawned ([StdoutData (lit "NO")]
                                          ++ TimerFires 6001
                                          :: [StdoutData (lit "PE");
                                              Close None 6003]) |})).
Proof.
  split; [repeat constructor|].
  apply (runSingleTest_timer_first sampleExecutable sampleCase 1 1000
           [StdoutData (lit "NO")] 6001
           [StdoutData (lit "PE"); Close None 6003]).
  repeat constructor.
Defined.

(** C7. A run that ends by the timer, or by a ['close'] with a null code,
    never passes, whatever it printed. *)
Theorem timed_out_or_killed_never_accepted
    (executablePath : jsstring) (testCase : TestCase.t) (testNumber : nat)
    (start : Z) (pre : list Event) (ev : Event) (post : list Event) :
  Forall (fun e => settles e = false) pre ->
  exitStatus ev = Some TimedOut \/ exitStatus ev = Some Killed ->
  exists r,
    fst (runSingleTest executablePath testCase testNumber
           {| startTime := start; launch := Spawned (pre ++ ev :: post) |})
    = Resolved r
    /\ TestResult.passed r = false
    /\ ~ accepted r.
Proof.
  intros Q E.
  destruct ev as [| |now|[n|] now|];
    try (destruct E as [E|E]; discriminate).
  - eexists. split.
    + apply runSingleTest_settlement; [exact Q|reflexivity].
    + split; [reflexivity|]. intros [P _]. discriminate.
  - eexists. split.
    + apply runSingleTest_settlement; [exact Q|reflexivity].
    + split; [reflexivity|]. intros [P _]. discriminate.
Qed.

Lemma timed_out_or_killed_never_accepted_witness :
  Forall (fun e => settles e = false) [StdoutData (lit "YES")]
  /\ (exitStatus (Close None 1500) = Some TimedOut
      \/ exitStatus (Close None 1500) = Some Killed)
  /\ exists r,
       fst (runSingleTest sampleExecutable sampleCase 1
              {| startTime := 1000;
                 launch := Spawned ([StdoutData (lit "YES")]
                                    ++ Close None 1500 :: []) |})
       = Resolved r
       /\ TestResult.passed r = false
       /\ ~ accepted r.
Proof.
  split; [repeat constructor|]. split; [right; reflexivity|].
  apply (timed_out_or_killed_never_accepted sampleExecutable sampleCase 1
           1000 [StdoutData (lit "YES")] (Close None 1500) []);
    [repeat constructor|right; reflexivity].
Defined.

(** ** The report of a suite *)

(** C2. When every child settles, [runTestCases] returns one result per
    test case, in the order of the test cases, numbered 1, 2, ... without
    gap or repetition; the total [showTestResults] prints is the number of
    test cases and its count of passed tests is the number of accepted
    results.  The empty sequence is included. *)
Theorem runTestCases_report
    (executablePath : jsstring) (testCases : list TestCase.t)
    (world : nat -> Attempt) :
  (forall k, k < List.length testCases -> settling (world k) = true) ->
  exists results,
    fst (runTestCases executablePath testCases world) = Resolved results
    /\ List.length results = List.length testCases
    /\ List.map TestResult.testNumber results
       = seq 1 (List.length testCases)
    /\ NoDup (List.map TestResult.testNumber results)
    /\ List.map TestResult.input results
       = List.map TestCase.input testCases
    /\ List.map TestResult.expectedOutput results
       = List.map TestCase.output testCases
    /\ totalTests results = List.length testCases
    /\ passedTests results = List.length (List.filter acceptedb results).
Proof.
  intros Hs. unfold runTestCases.
  destruct (runTestCasesFrom_returns executablePath world testCases 0 [] []
              Hs) as (out & E).
  destruct (runTestCasesFrom_shape executablePath world testCases 0 [] []
              out E) as (rs & -> & L & N).
  destruct (pushed_list_fields executablePath world 0 testCases rs L N)
    as (Hn & Hi & Ho & Hp).
  exists rs. simpl app in *. repeat split; try assumption.
  - rewrite Hn. apply seq_NoDup.
  - unfold passedTests. f_equal. apply filter_ext_in.
    intros r Hin. rewrite Forall_forall in Hp. specialize (Hp r Hin).
    unfold passedIffNoError in Hp. unfold acceptedb.
    destruct (TestResult.passed r); simpl.
    + destruct Hp as [Hp _]. now rewrite (Hp eq_refl).
    + reflexivity.
Qed.

Lemma runTestCases_report_witness :
  (forall k, k < List.length [sampleCase; sampleCase] ->
             settling ((fun i => match i with
                                 | 0 => printsYes
                                 | _ => loopsForever
                                 end) k) = true)
  /\ exists results,
       fst (runTestCases sampleExecutable [sampleCase; sampleCase]
              (fun i => match i with 0 => printsYes | _ => loopsForever end))
       = Resolved results
       /\ List.length results = 2
       /\ List.map TestResult.testNumber results = [1; 2]
       /\ NoDup (List.map TestResult.testNumber results)
       /\ List.map TestResult.input results = [lit "8"; lit "8"]
       /\ List.map TestResult.expectedOutput results
          = [lit "YES"; lit "YES"]
       /\ totalTests results = 2
       /\ passedTests results = List.length (List.filter acceptedb results).
Proof.
  split.
  - intros [|[|k]] Hk; [reflexivity|reflexivity|simpl in Hk; lia].
  - apply (runTestCases_report sampleExecutable [sampleCase; sampleCase]
             (fun i => match i with 0 => printsYes | _ => loopsForever end)).
    intros [|[|k]] Hk; [reflexivity|reflexivity|simpl in Hk; lia].
Defined.

(** C8. On the empty sequence [runTestCases] returns the empty array at
    once: no effect is performed, so no child is spawned, and both counts
    are zero. *)
Theorem runTestCases_empty
    (executablePath : jsstring) (world : nat -> Attempt) :
  runTestCases executablePath [] world = (Resolved [], [])
  /\ List.existsb isSpawn (snd (runTestCases executablePath [] world))
     = false
  /\ totalTests [] = 0
  /\ passedTests [] = 0.
Proof. repeat split. Qed.

(** C9. In every report [passed] is true exactly when [error] is null: a
    result that failed, for whatever reason, carries an error text, and a
    result that passed carries none. *)
Theorem results_passed_iff_no_error
    (executablePath : jsstring) (testCases : list TestCase.t)
    (world : nat -> Attempt) :
  (forall k, k < List.length testCases -> settling (world k) = true) ->
  exists results,
    fst (runTestCases executablePath testCases world) = Resolved results
    /\ Forall (fun r =>
                 (TestResult.passed r = true <-> TestResult.error r = None)
                 /\ (TestResult.passed r = false ->
                     exists text, TestResult.error r = Some text))
              results.
Proof.
  intros Hs. unfold runTestCases.
  destruct (runTestCasesFrom_returns executablePath world testCases 0 [] []
              Hs) as (out & E).
  destruct (runTestCasesFrom_shape executablePath world testCases 0 [] []
              out E) as (rs & -> & L & N).
  destruct (pushed_list_fields executablePath world 0 testCases rs L N)
    as (_ & _ & _ & Hp).
  exists rs. split; [exact E|].
  eapply Forall_impl; [|exact Hp].
  intros r P. split; [exact P|].
  intros F. destruct P as [_ P].
  destruct (TestResult.error r) as [text|].
  - now exists text.
  - rewrite (P eq_refl) in F. discriminate.
Qed.

Lemma results_passed_iff_no_error_witness :
  (forall k, k < List.length [sampleCase; sampleCase] ->
             settling ((fun i => match i with
                                 | 0 => printsYes
                                 | _ => {| startTime := 7;
                                           launch := SpawnThrows spawnENOENT |}
                                 end) k) = true)
  /\ exists results,
       fst (runTestCases sampleExecutable [sampleCase; sampleCase]
              (fun i => match i with
                        | 0 => printsYes
                        | _ => {| startTime := 7;
                                  launch := SpawnThrows spawnENOENT |}
                        end))
       = Resolved results
       /\ Forall (fun r =>
                    (TestResult.passed r = true
                     <-> TestResult.error r = None)
                    /\ (TestResult.passed r = false ->
                        exists text, TestResult.error r = Some text))
                 results.
Proof.
  split.
  - intros [|[|k]] Hk; [reflexivity|reflexivity|simpl in Hk; lia].
  - apply (results_passed_iff_no_error sampleExecutable
             [sampleCase; sampleCase]
             (fun i => match i with
                       | 0 => printsYes
                       | _ => {| startTime := 7;
                                 launch := SpawnThrows spawnENOENT |}
                       end)).
    intros [|[|k]] Hk; [reflexivity|reflexivity|simpl in Hk; lia].
Defined.

(** C10. The delay of every timer is 5000 ms.  [handleRunTests] gives the
    same effects whatever the field [timeLimit] of the problem holds; every
    [setTimeout] of a suite run is set with 5000; and a launched child is
    first written the input of its test case followed by one line feed,
    then its standard input is closed, before the timer is set, nothing
    being written afterwards. *)
Theorem timeout_is_constant
    (host : Host) (problemData : ProblemData.t) (timeLimit : jsstring)
    (executablePath : jsstring) (testCases : list TestCase.t)
    (world : nat -> Attempt)
    (testCase : TestCase.t) (testNumber : nat) (start : Z)
    (events : list Event) :
  handleRunTests host (Some (withTimeLimit timeLimit problemData))
  = handleRunTests host (Some problemData)
  /\ Forall timerOf5000 (snd (runTestCases executablePath testCases world))
  /\ exists tail,
       snd (runSingleTest executablePath testCase testNumber
              {| startTime := start; launch := Spawned events |})
       = [Spawn executablePath;
          StdinWrite (TestCase.input testCase ++ [nl]);
          StdinEnd;
          SetTimeout 5000] ++ tail
       /\ forallb isReaction tail = true.
Proof.
  split; [reflexivity|]. split.
  - apply Forall_forall. intros e Hin.
    destruct e; try exact I. simpl.
    destruct (runTestCasesFrom_timeout executablePath world testCases 0 [] []
                ms Hin) as [[]|H]; exact H.
  - apply runSingleTest_setup.
Qed.

(** ** Launch failures *)

(** What the [catch] of [runTestCases] does with a [spawn] that throws: the
    case gets a failed result carrying the message, and the loop goes on. *)
Lemma runTestCases_catches_throw
    (executablePath : jsstring) (world : nat -> Attempt) (i : nat)
    (testCase : TestCase.t) (e : Thrown) :
  launch (world i) = SpawnThrows e ->
  pushed executablePath world i testCase = Some (caughtResult testCase i e)
  /\ internalError e (caughtResult testCase i e).
Proof.
  intros H. unfold pushed, runSingleTest. rewrite H.
  repeat split.
Qed.

(** C4. A missing executable is not reported as the [catch] would report
    it.  [spawn] does not throw; the child emits ['error'], to which
    [runSingleTest] does not listen, so the error is thrown outside the
    promise and nothing settles the promise until the timer fires: the case
    is reported as "Time Limit Exceeded" and an uncaught exception is
    raised. *)
Theorem runTestCases_missing_executable :
  runTestCases sampleExecutable [sampleCase] (fun _ => missingExecutable)
  = (Resolved [timeoutResult sampleCase 1 1000 [] 6000],
     [Spawn sampleExecutable; StdinWrite (lit "8" ++ [nl]); StdinEnd;
      SetTimeout 5000; UncaughtException spawnENOENT; Kill])
  /\ timeLimitExceeded (timeoutResult sampleCase 1 1000 [] 6000)
  /\ ~ internalError spawnENOENT (timeoutResult sampleCase 1 1000 [] 6000).
Proof.
  split; [reflexivity|]. split; [split; reflexivity|].
  intros (_ & E & _). cbn in E. discriminate.
Qed.

(** ** Normalisation *)

(** C5. [normalizeOutput] removes more than blank lines: the white space
    that starts the first line kept goes too.  On ["  8"] the specified
    normalisation keeps the two spaces and the source drops them, so that
    ["  8"] compares equal to ["8"]; in general the source's result is the
    specified one with its leading white space removed. *)
Theorem normalizeOutput_strips_indent :
  normalizeOutput (lit "  8") = lit "8"
  /\ normalizeAsSpecified (lit "  8") = lit "  8"
  /\ compareOutputs (lit "  8") (lit "8") = true
  /\ forall s, normalizeOutput s = trimStart (normalizeAsSpecified s).
Proof.
  repeat split. apply normalizeOutput_normalizeAsSpecified.
Qed.

(** C6. Normalising twice is normalising once, for every text; hence
    [compareOutputs], which normalises both its arguments, gives the same
    answer on normalised texts. *)
Theorem normalizeOutput_idempotent (s actual expected : jsstring) :
  normalizeOutput (normalizeOutput s) = normalizeOutput s
  /\ compareOutputs (normalizeOutput actual) (normalizeOutput expected)
     = compareOutputs actual expected.
Proof.
  split; [apply normalizeOutput_fixed|].
  unfold compareOutputs. now rewrite !normalizeOutput_fixed.
Qed.

(** ** What [compareOutputs] is blind to, and what it sees *)

Section ComparisonFacts.

Lemma trimEnd_blank (w : jsstring) :
  forallb isWhiteSpace w = true -> trimEnd w = [].
Proof.
  induction w as [|c w IH]; simpl; [reflexivity|].
  intros H. apply andb_prop in H as [Hc Hw].
  now rewrite (IH Hw), Hc.
Qed.

Lemma trimEnd_app_blank (s w : jsstring) :
  forallb isWhiteSpace w = true -> trimEnd (s ++ w) = trimEnd s.
Proof. intros H. now rewrite trimEnd_app, (trimEnd_blank _ H). Qed.

(** The trimmed lines of [d :: x] depend on [x] through its trimmed lines
    only. *)
Lemma trimmed_split_cons (d : codeUnit) (x y : jsstring) :
  List.map trimEnd (split x) = List.map trimEnd (split y) ->
  List.map trimEnd (split (d :: x)) = List.map trimEnd (split (d :: y)).
Proof.
  intros H. simpl. destruct (d =? nl)%N; simpl; [now f_equal|].
  pose proof (split_not_nil x) as Nx. pose proof (split_not_nil y) as Ny.
  destruct (split x) as [|l ls]; [congruence|].
  destruct (split y) as [|l' ls']; [congruence|].
  simpl in *. injection H as Hl Hls. now rewrite Hl, Hls.
Qed.

Lemma trimmed_split_snoc (s : jsstring) (c : codeUnit) :
  isWhiteSpace c = true -> c <> nl ->
  List.map trimEnd (split (s ++ [c])) = List.map trimEnd (split s).
Proof.
  intros W N. induction s as [|d s IH].
  - simpl. destruct (N.eqb_spec c nl); [contradiction|].
    simpl. now rewrite W.
  - rewrite <- app_comm_cons. now apply trimmed_split_cons.
Qed.

Lemma trimmed_split_snoc_nl (s : jsstring) :
  List.map trimEnd (split (s ++ [nl]))
  = List.map trimEnd (split s) ++ [[]].
Proof.
  induction s as [|d s IH]; [reflexivity|].
  rewrite <- app_comm_cons. simpl.
  destruct (d =? nl)%N; simpl; [now rewrite IH|].
  pose proof (split_not_nil s) as Ns.
  pose proof (split_not_nil (s ++ [nl])) as Nt.
  destruct (split s) as [|l ls]; [congruence|].
  destruct (split (s ++ [nl])) as [|l' ls']; [congruence|].
  simpl in *. injection IH as Hl Hls. now rewrite Hl, Hls.
Qed.

Lemma join_snoc_empty (ls : list jsstring) :
  ls <> [] -> join (ls ++ [[]]) = join ls ++ [nl].
Proof.
  induction ls as [|l ls IH]; [congruence|]. intros _.
  destruct ls as [|l' ls].
  - simpl. reflexivity.
  - rewrite <- app_comm_cons.
    rewrite (join_cons l) by (destruct ls; discriminate).
    rewrite IH by discriminate.
    rewrite (join_cons l) by discriminate.
    now rewrite <- app_assoc.
Qed.

Lemma normalizeOutput_cons_blank (c : codeUnit) (s : jsstring) :
  isWhiteSpace c = true -> normalizeOutput (c :: s) = normalizeOutput s.
Proof.
  intros W. unfold normalizeOutput, trim. f_equal. cbn [split].
  destruct (N.eqb_spec c nl) as [->|N].
  - pose proof (split_not_nil s) as Ns.
    destruct (split s) as [|l ls]; [congruence|]. reflexivity.
  - pose proof (split_not_nil s) as Ns.
    destruct (split s) as [|l ls]; [congruence|].
    cbn [List.map trimEnd].
    destruct (trimEnd l) as [|e r]; [now rewrite W|].
    destruct (List.map trimEnd ls); cbn [join app trimStart]; now rewrite W.
Qed.

Lemma normalizeOutput_snoc_blank (s : jsstring) (c : codeUnit) :
  isWhiteSpace c = true -> normalizeOutput (s ++ [c]) = normalizeOutput s.
Proof.
  intros W. unfold normalizeOutput, trim.
  rewrite !trimEnd_trimStart_comm. f_equal.
  destruct (N.eqb_spec c nl) as [->|N].
  - rewrite trimmed_split_snoc_nl, join_snoc_empty.
    + now apply trimEnd_app_blank.
    + pose proof (split_not_nil s). destruct (split s); [congruence|].
      discriminate.
  - now rewrite trimmed_split_snoc.
Qed.

Lemma normalizeOutput_app_blank (s w : jsstring) :
  forallb isWhiteSpace w = true -> normalizeOutput (s ++ w) = normalizeOutput s.
Proof.
  revert s. induction w as [|c w IH]; intros s H.
  - now rewrite app_nil_r.
  - simpl in H. apply andb_prop in H as [Hc Hw].
    change (s ++ c :: w) with (s ++ [c] ++ w). rewrite app_assoc.
    rewrite (IH _ Hw). now apply normalizeOutput_snoc_blank.
Qed.

Lemma normalizeOutput_blank_app (w s : jsstring) :
  forallb isWhiteSpace w = true -> normalizeOutput (w ++ s) = normalizeOutput s.
Proof.
  induction w as [|c w IH]; intros H; [reflexivity|].
  simpl in H. apply andb_prop in H as [Hc Hw].
  rewrite <- app_comm_cons, (normalizeOutput_cons_blank _ _ Hc).
  now apply IH.
Qed.

Lemma trimmed_split_padLineEnds (pad s : jsstring) :
  forallb isWhiteSpace pad = true -> ~ In nl pad ->
  List.map trimEnd (split (padLineEnds pad s)) = List.map trimEnd (split s).
Proof.
  intros W N. induction s as [|c s IH]; [reflexivity|].
  unfold padLineEnds in *. cbn [List.flat_map].
  destruct (N.eqb_spec c nl) as [->|Hc].
  - rewrite <- app_assoc. cbn [app].
    rewrite split_app_nl by exact N.
    cbn [List.map]. rewrite (trimEnd_blank _ W), IH. reflexivity.
  - cbn [app]. now apply trimmed_split_cons.
Qed.

Lemma inkOf_trimEnd (s : jsstring) : inkOf (trimEnd s) = inkOf s.
Proof.
  unfold inkOf. induction s as [|c s IH]; [reflexivity|].
  cbn [trimEnd]. cbn [List.filter]. rewrite <- IH.
  destruct (trimEnd s) as [|e r].
  - destruct (isWhiteSpace c) eqn:W; simpl; now rewrite ?W.
  - cbn [List.filter]. reflexivity.
Qed.

Lemma inkOf_trimStart (s : jsstring) : inkOf (trimStart s) = inkOf s.
Proof.
  unfold inkOf. induction s as [|c s IH]; [reflexivity|].
  simpl. destruct (isWhiteSpace c) eqn:W; simpl; [exact IH|].
  now rewrite W.
Qed.

Lemma inkOf_join (ls : list jsstring) :
  inkOf (join ls) = List.concat (List.map inkOf ls).
Proof.
  induction ls as [|l ls IH]; [reflexivity|].
  destruct ls as [|l' ls].
  - simpl. now rewrite app_nil_r.
  - rewrite join_cons by discriminate.
    unfold inkOf in *. rewrite filter_app. cbn [List.filter].
    rewrite nl_isWhiteSpace. cbn [negb]. rewrite IH. reflexivity.
Qed.

Lemma inkOf_normalizeOutput (s : jsstring) :
  inkOf (normalizeOutput s) = inkOf s.
Proof.
  unfold normalizeOutput, trim.
  rewrite inkOf_trimEnd, inkOf_trimStart, inkOf_join, List.map_map.
  rewrite (map_ext _ inkOf) by apply inkOf_trimEnd.
  now rewrite <- inkOf_join, join_split.
Qed.

Lemma inkOf_nil_blank (s : jsstring) :
  inkOf s = [] -> forallb isWhiteSpace s = true.
Proof.
  unfold inkOf. induction s as [|c s IH]; simpl; [reflexivity|].
  destruct (isWhiteSpace c); simpl; [exact IH|discriminate].
Qed.

Lemma eqb_eq (a b : jsstring) : Js.eqb a b = true <-> a = b.
Proof.
  unfold Js.eqb. destruct (list_eq_dec N.eq_dec a b); split;
    congruence.
Qed.

End ComparisonFacts.

(** X1. White space around the whole text, line feeds included, does not
    count: a text compares as the text without it does. *)
Theorem normalizeOutput_ignores_surrounding_blank (w1 s w2 : jsstring) :
  forallb isWhiteSpace w1 = true ->
  forallb isWhiteSpace w2 = true ->
  normalizeOutput (w1 ++ s ++ w2) = normalizeOutput s
  /\ forall expected,
       compareOutputs (w1 ++ s ++ w2) expected = compareOutputs s expected.
Proof.
  intros H1 H2.
  assert (E : normalizeOutput (w1 ++ s ++ w2) = normalizeOutput s).
  { rewrite (normalizeOutput_blank_app _ _ H1).
    now apply normalizeOutput_app_blank. }
  split; [exact E|]. intros expected. unfold compareOutputs. now rewrite E.
Qed.

Lemma normalizeOutput_ignores_surrounding_blank_witness :
  forallb isWhiteSpace ([nl] ++ lit "  ") = true
  /\ forallb isWhiteSpace (lit " " ++ [cr; nl; nl]) = true
  /\ normalizeOutput (([nl] ++ lit "  ") ++ lit "YES"
                      ++ (lit " " ++ [cr; nl; nl]))
     = normalizeOutput (lit "YES")
  /\ forall expected,
       compareOutputs (([nl] ++ lit "  ") ++ lit "YES"
                       ++ (lit " " ++ [cr; nl; nl])) expected
       = compareOutputs (lit "YES") expected.
Proof.
  split; [reflexivity|]. split; [reflexivity|].
  apply (normalizeOutput_ignores_surrounding_blank
           ([nl] ++ lit "  ") (lit "YES") (lit " " ++ [cr; nl; nl]));
    reflexivity.
Defined.

(** X2. White space put before every line feed does not count either; in
    particular a text with Windows line ends compares as the same text with
    Unix line ends. *)
Theorem normalizeOutput_ignores_line_end_padding (pad s : jsstring) :
  forallb isWhiteSpace pad = true ->
  ~ In nl pad ->
  normalizeOutput (padLineEnds pad s) = normalizeOutput s
  /\ forall expected,
       compareOutputs (padLineEnds pad s) expected
       = compareOutputs s expected.
Proof.
  intros W N.
  assert (E : normalizeOutput (padLineEnds pad s) = normalizeOutput s).
  { unfold normalizeOutput.
    now rewrite (trimmed_split_padLineEnds _ _ W N). }
  split; [exact E|]. intros expected. unfold compareOutputs. now rewrite E.
Qed.

Lemma normalizeOutput_ignores_line_end_padding_witness :
  forallb isWhiteSpace [cr] = true
  /\ ~ In nl [cr]
  /\ normalizeOutput (padLineEnds [cr] (lit "1 2" ++ [nl] ++ lit "3" ++ [nl]))
     = normalizeOutput (lit "1 2" ++ [nl] ++ lit "3" ++ [nl])
  /\ forall expected,
       compareOutputs
         (padLineEnds [cr] (lit "1 2" ++ [nl] ++ lit "3" ++ [nl])) expected
       = compareOutputs (lit "1 2" ++ [nl] ++ lit "3" ++ [nl]) expected.
Proof.
  split; [reflexivity|].
  split; [intros [H|[]]; discriminate|].
  apply (normalizeOutput_ignores_line_end_padding [cr]
           (lit "1 2" ++ [nl] ++ lit "3" ++ [nl])).
  - reflexivity.
  - intros [H|[]]. discriminate.
Defined.

(** X3. Normalisation removes white space only: the characters that are not
    white space stay, in their order.  Two texts that compare equal
    therefore have the same such characters. *)
Theorem compareOutputs_same_ink (actual expected : jsstring) :
  compareOutputs actual expected = true ->
  inkOf actual = inkOf expected.
Proof.
  unfold compareOutputs. intros H. apply eqb_eq in H.
  rewrite <- (inkOf_normalizeOutput actual).
  rewrite <- (inkOf_normalizeOutput expected).
  now rewrite H.
Qed.

Lemma compareOutputs_same_ink_witness :
  compareOutputs (lit "1 2 " ++ [cr; nl] ++ lit "3") (lit "1 2" ++ [nl] ++ lit "3")
  = true
  /\ inkOf (lit "1 2 " ++ [cr; nl] ++ lit "3")
     = inkOf (lit "1 2" ++ [nl] ++ lit "3").
Proof.
  split; [reflexivity|].
  apply (compareOutputs_same_ink (lit "1 2 " ++ [cr; nl] ++ lit "3")
           (lit "1 2" ++ [nl] ++ lit "3")).
  reflexivity.
Defined.

(** X4. The normalised text is empty exactly when the text holds nothing
    but white space; so a test whose expected output is empty is passed by
    the outputs that print white space only, and by no other. *)
Theorem normalizeOutput_empty_iff (s : jsstring) :
  (normalizeOutput s = [] <-> forallb isWhiteSpace s = true)
  /\ (compareOutputs s [] = true <-> forallb isWhiteSpace s = true).
Proof.
  assert (E : normalizeOutput s = [] <-> forallb isWhiteSpace s = true).
  { split.
    - intros H. apply inkOf_nil_blank.
      now rewrite <- inkOf_normalizeOutput, H.
    - intros H. rewrite <- (app_nil_r s).
      now rewrite (normalizeOutput_blank_app _ _ H). }
  split; [exact E|].
  unfold compareOutputs. rewrite eqb_eq. exact E.
Qed.

(** X5. The normalised text neither starts nor ends with white space, and
    none of its lines ends with white space. *)
Theorem normalizeOutput_shape (s : jsstring) :
  trimStart (normalizeOutput s) = normalizeOutput s
  /\ trimEnd (normalizeOutput s) = normalizeOutput s
  /\ Forall (fun l => trimEnd l = l) (split (normalizeOutput s)).
Proof.
  unfold normalizeOutput at 1 2 3 4. unfold trim. repeat split.
  - apply trimStart_trimEnd_fixed, trimStart_idempotent.
  - apply trimEnd_idempotent.
  - unfold normalizeOutput, trim.
    destruct (trimStart_join _ (trimmedLines_split s)) as (ls & E & H).
    rewrite E, (trimEnd_join _ H).
    pose proof (dropBlankEnd_trimmedLines _ H) as T.
    destruct (dropBlankEnd ls) as [|l ls'] eqn:D.
    + repeat constructor.
    + rewrite split_join.
      * eapply Forall_impl; [|exact T]. now intros x [Hx _].
      * discriminate.
      * eapply Forall_impl; [|exact T]. now intros x [_ Hx].
Qed.

(** X17. A text that neither starts nor ends with white space and none of
    whose lines ends with white space is left as it is; two such texts
    compare equal only when they are the same text, so that differences
    inside a line and blank lines between lines are seen. *)
Theorem normalizeOutput_normal_form (a b : jsstring) :
  trimStart a = a -> trimEnd a = a ->
  Forall (fun l => trimEnd l = l) (split a) ->
  trimStart b = b -> trimEnd b = b ->
  Forall (fun l => trimEnd l = l) (split b) ->
  normalizeOutput a = a
  /\ normalizeOutput b = b
  /\ (compareOutputs a b = true <-> a = b).
Proof.
  assert (F : forall s : jsstring,
             trimStart s = s -> trimEnd s = s ->
             Forall (fun l => trimEnd l = l) (split s) ->
             normalizeOutput s = s).
  { intros s Hs He Hl. unfold normalizeOutput, trim.
    rewrite (map_ext_in trimEnd (fun l => l)).
    - now rewrite map_id, join_split, Hs, He.
    - rewrite Forall_forall in Hl. exact Hl. }
  intros Sa Ea La Sb Eb Lb.
  pose proof (F a Sa Ea La) as Na. pose proof (F b Sb Eb Lb) as Nb.
  split; [exact Na|]. split; [exact Nb|].
  unfold compareOutputs. now rewrite Na, Nb, eqb_eq.
Qed.

Lemma normalizeOutput_normal_form_witness :
  trimStart (lit "1  2" ++ [nl; nl] ++ lit " 3") = lit "1  2" ++ [nl; nl] ++ lit " 3"
  /\ trimEnd (lit "1  2" ++ [nl; nl] ++ lit " 3") = lit "1  2" ++ [nl; nl] ++ lit " 3"
  /\ Forall (fun l => trimEnd l = l) (split (lit "1  2" ++ [nl; nl] ++ lit " 3"))
  /\ trimStart (lit "1 2" ++ [nl] ++ lit "3") = lit "1 2" ++ [nl] ++ lit "3"
  /\ trimEnd (lit "1 2" ++ [nl] ++ lit "3") = lit "1 2" ++ [nl] ++ lit "3"
  /\ Forall (fun l => trimEnd l = l) (split (lit "1 2" ++ [nl] ++ lit "3"))
  /\ normalizeOutput (lit "1  2" ++ [nl; nl] ++ lit " 3")
     = lit "1  2" ++ [nl; nl] ++ lit " 3"
  /\ normalizeOutput (lit "1 2" ++ [nl] ++ lit "3")
     = lit "1 2" ++ [nl] ++ lit "3"
  /\ (compareOutputs (lit "1  2" ++ [nl; nl] ++ lit " 3")
        (lit "1 2" ++ [nl] ++ lit "3") = true
      <-> lit "1  2" ++ [nl; nl] ++ lit " 3" = lit "1 2" ++ [nl] ++ lit "3").
Proof.
  split; [reflexivity|]. split; [reflexivity|].
  split; [repeat constructor|].
  split; [reflexivity|]. split; [reflexivity|].
  split; [repeat constructor|].
  apply (normalizeOutput_normal_form
           (lit "1  2" ++ [nl; nl] ++ lit " 3")
           (lit "1 2" ++ [nl] ++ lit "3"));
    try reflexivity; repeat constructor.
Defined.

(** ** More about one run *)

Section MoreRunFacts.

Variable testCase : TestCase.t.
Variable testNumber : nat.
Variable start : Z.

Lemma timeoutPending_resolve (r : TestResult.t) (st : Run) :
  timeoutPending (resolve r st) = timeoutPending st.
Proof. unfold resolve. now destruct (promise st). Qed.

(** Once the timer is cleared or has fired, nothing is killed any more. *)
Lemma deliverAll_disarmed (events : list Event) (st : Run) :
  timeoutPending st = false ->
  List.filter isKill (effects (deliverAll testCase testNumber start events st))
  = List.filter isKill (effects st).
Proof.
  revert st. induction events as [|ev events IH]; intros st H; [reflexivity|].
  rewrite deliverAll_cons.
  destruct ev; cbn [deliver].
  - rewrite IH by exact H. reflexivity.
  - rewrite IH by exact H. reflexivity.
  - rewrite H. now apply IH.
  - rewrite IH by now rewrite timeoutPending_resolve.
    rewrite effects_resolve. simpl. rewrite filter_app. simpl.
    now rewrite app_nil_r.
  - rewrite IH by exact H. simpl. rewrite filter_app. simpl.
    now rewrite app_nil_r.
Qed.

Lemma deliverAll_kills_once (events : list Event) (st : Run) :
  List.length
    (List.filter isKill
       (effects (deliverAll testCase testNumber start events st)))
  <= List.length (List.filter isKill (effects st)) + 1.
Proof.
  revert st. induction events as [|ev events IH]; intros st; [simpl; lia|].
  rewrite deliverAll_cons.
  destruct ev; cbn [deliver].
  - etransitivity; [apply IH|]. simpl. lia.
  - etransitivity; [apply IH|]. simpl. lia.
  - destruct (timeoutPending st) eqn:P; [|apply IH].
    rewrite deliverAll_disarmed by now rewrite timeoutPending_resolve.
    rewrite effects_resolve. simpl. rewrite filter_app, length_app. simpl.
    lia.
  - rewrite deliverAll_disarmed by now rewrite timeoutPending_resolve.
    rewrite effects_resolve. simpl. rewrite filter_app, length_app. simpl.
    lia.
  - etransitivity; [apply IH|]. simpl. rewrite filter_app, length_app.
    simpl. lia.
Qed.

Lemma faultsOf_no_kill (events : list Event) :
  List.filter isKill (faultsOf events) = [].
Proof.
  induction events as [|ev events IH]; [reflexivity|].
  unfold faultsOf in *. simpl. rewrite filter_app, IH.
  now destruct ev.
Qed.

Lemma runSingleTest_pending_iff (executablePath : jsstring) (a : Attempt) :
  startTime a = start ->
  (fst (runSingleTest executablePath testCase testNumber a) = Pending
   <-> settling a = false).
Proof.
  intros Hs. split.
  - intros H. destruct (settling a) eqn:Hu; [|reflexivity].
    now destruct (runSingleTest_settling testCase testNumber start
                    executablePath a Hs Hu).
  - destruct a as [t0 [e|events]]; unfold settling; cbn [launch];
      [discriminate|].
    intros X. unfold runSingleTest. cbn [launch startTime fst].
    now rewrite (deliverAll_quiet _ _ _ _ _ (settles_none _ X)).
Qed.

Lemma skipn_length_app {A : Type} (l t : list A) :
  skipn (List.length l) (l ++ t) = t.
Proof. induction l as [|a l IH]; [reflexivity|exact IH]. Qed.

(** The log of a whole run is the log up to the settling of its promise,
    then the late reactions; these only clear the timer or raise an
    uncaught fault. *)
Lemma runSingleTest_late (executablePath : jsstring) (a : Attempt) :
  startTime a = start ->
  snd (runSingleTest executablePath testCase testNumber a)
  = snd (runSingleTest executablePath testCase testNumber (awaitedPart a))
    ++ lateReactions executablePath testCase testNumber a
  /\ forallb isLate
       (lateReactions executablePath testCase testNumber a) = true.
Proof.
  intros Hs.
  assert (E : exists tail,
             snd (runSingleTest executablePath testCase testNumber a)
             = snd (runSingleTest executablePath testCase testNumber
                      (awaitedPart a)) ++ tail
             /\ forallb isLate tail = true).
  { destruct a as [t0 [e|events]]; simpl in Hs; subst t0.
    - exists []. split; [now rewrite app_nil_r|reflexivity].
    - unfold awaitedPart, runSingleTest. cbn [launch startTime snd].
      destruct (existsb settles events) eqn:X.
      + destruct (settles_split _ X) as (pre & ev & post & -> & Q & T).
        rewrite (untilSettled_split _ _ _ Q T).
        replace (pre ++ ev :: post) with ((pre ++ [ev]) ++ post)
          by now rewrite <- app_assoc.
        rewrite (deliverAll_app testCase testNumber start (pre ++ [ev]) post).
        set (st := deliverAll testCase testNumber start (pre ++ [ev])
                     (spawned executablePath testCase)).
        assert (D : timeoutPending st = false).
        { unfold st. rewrite deliverAll_app.
          rewrite (deliverAll_quiet _ _ _ _ _ Q).
          destruct ev; try discriminate; cbn [deliverAll fold_left deliver].
          - cbn [timeoutPending spawned]. now rewrite timeoutPending_resolve.
          - now rewrite timeoutPending_resolve. }
        destruct (deliverAll_effects testCase testNumber start post st)
          as (tail & Et & R).
        pose proof (deliverAll_disarmed post st D) as K.
        rewrite Et in *. exists tail. split; [reflexivity|].
        rewrite filter_app in K.
        assert (Kt : List.filter isKill tail = []).
        { apply (f_equal (@List.length Effect)) in K.
          rewrite length_app in K.
          destruct (List.filter isKill tail); [reflexivity|].
          simpl in K. lia. }
        clear - R Kt. induction tail as [|e tail IH]; [reflexivity|].
        simpl in *. apply andb_prop in R as [Re Rt].
        destruct e; try discriminate; simpl in *; try (now apply IH).
      + rewrite (untilSettled_quiet _ (settles_none _ X)).
        exists []. split; [now rewrite app_nil_r|reflexivity]. }
  destruct E as (tail & E & L).
  unfold lateReactions. rewrite E, skipn_length_app. now split.
Qed.

End MoreRunFacts.

(** X6. What comes after the first settling event changes nothing: the
    result is the one the run would have if it stopped there, and its
    [actualOutput] is the standard output received until then, as it was
    received. *)
Theorem runSingleTest_first_settling_event_decides
    (executablePath : jsstring) (testCase : TestCase.t) (testNumber : nat)
    (start : Z) (pre : list Event) (ev : Event) (post : list Event) :
  Forall (fun e => settles e = false) pre ->
  settles ev = true ->
  exists r,
    fst (runSingleTest executablePath testCase testNumber
           {| startTime := start; launch := Spawned (pre ++ ev :: post) |})
    = Resolved r
    /\ fst (runSingleTest executablePath testCase testNumber
              {| startTime := start; launch := Spawned (pre ++ [ev]) |})
       = Resolved r
    /\ TestResult.actualOutput r = stdoutOf pre.
Proof.
  intros Q T.
  destruct (settles_settlement testCase testNumber start pre ev T) as (r & S).
  exists r. split; [|split].
  - now apply runSingleTest_settlement.
  - now apply runSingleTest_settlement.
  - destruct ev as [| |now|[n|] now|]; try discriminate;
      simpl in S; injection S as <-; [reflexivity| |reflexivity].
    unfold closeResult. now destruct (negb (n =? 0)%Z).
Qed.

Lemma runSingleTest_first_settling_event_decides_witness :
  Forall (fun e => settles e = false)
         [StdoutData (lit "YE"); StderrData (lit "warn"); StdoutData (lit "S")]
  /\ settles (Close (Some 0%Z) 1040) = true
  /\ exists r,
       fst (runSingleTest sampleExecutable sampleCase 1
              {| startTime := 1000;
                 launch := Spawned
                   ([StdoutData (lit "YE"); StderrData (lit "warn");
                     StdoutData (lit "S")]
                    ++ Close (Some 0%Z) 1040
                    :: [StdoutData (lit "late"); TimerFires 6000]) |})
       = Resolved r
       /\ fst (runSingleTest sampleExecutable sampleCase 1
                 {| startTime := 1000;
                    launch := Spawned
                      ([StdoutData (lit "YE"); StderrData (lit "warn");
                        StdoutData (lit "S")]
                       ++ [Close (Some 0%Z) 1040]) |})
          = Resolved r
       /\ TestResult.actualOutput r
          = stdoutOf [StdoutData (lit "YE"); StderrData (lit "warn");
                      StdoutData (lit "S")].
Proof.
  split; [repeat constructor|]. split; [reflexivity|].
  apply (runSingleTest_first_settling_event_decides sampleExecutable
           sampleCase 1 1000
           [StdoutData (lit "YE"); StderrData (lit "warn");
            StdoutData (lit "S")]
           (Close (Some 0%Z) 1040)
           [StdoutData (lit "late"); TimerFires 6000]);
    [repeat constructor|reflexivity].
Defined.

(** X7. A test passes exactly when its child closes with code 0 before the
    timer fires and its standard output compares equal to the expected
    output. *)
Theorem runSingleTest_passes_iff
    (executablePath : jsstring) (testCase : TestCase.t) (testNumber : nat)
    (start : Z) (pre : list Event) (ev : Event) (post : list Event) :
  Forall (fun e => settles e = false) pre ->
  settles ev = true ->
  exists r,
    fst (runSingleTest executablePath testCase testNumber
           {| startTime := start; launch := Spawned (pre ++ ev :: post) |})
    = Resolved r
    /\ (TestResult.passed r = true
        <-> exitStatus ev = Some (ExitedWithCode 0)
            /\ compareOutputs (stdoutOf pre) (TestCase.output testCase)
               = true).
Proof.
  intros Q T.
  destruct (settles_settlement testCase testNumber start pre ev T) as (r & S).
  exists r. split; [now apply runSingleTest_settlement|].
  destruct ev as [| |now|[n|] now|]; try discriminate;
    simpl in S; injection S as <-; simpl.
  - split; [discriminate|]. intros [H _]. discriminate.
  - unfold closeResult. destruct (Z.eqb_spec n 0) as [->|Hn]; simpl.
    + split; [now split|now intros [_ H]].
    + split; [discriminate|]. intros [H _]. congruence.
  - split; [discriminate|]. intros [H _]. discriminate.
Qed.

Lemma runSingleTest_passes_iff_witness :
  Forall (fun e => settles e = false) [StdoutData (lit "YES" ++ [nl])]
  /\ settles (Close (Some 0%Z) 1012) = true
  /\ exists r,
       fst (runSingleTest sampleExecutable sampleCase 1
              {| startTime := 1000;
                 launch := Spawned ([StdoutData (lit "YES" ++ [nl])]
                                    ++ Close (Some 0%Z) 1012 :: []) |})
       = Resolved r
       /\ (TestResult.passed r = true
           <-> exitStatus (Close (Some 0%Z) 1012) = Some (ExitedWithCode 0)
               /\ compareOutputs (stdoutOf [StdoutData (lit "YES" ++ [nl])])
                    (TestCase.output sampleCase)
                  = true).
Proof.
  split; [repeat constructor|]. split; [reflexivity|].
  apply (runSingleTest_passes_iff sampleExecutable sampleCase 1 1000
           [StdoutData (lit "YES" ++ [nl])] (Close (Some 0%Z) 1012) []);
    [repeat constructor|reflexivity].
Defined.

(** X8. A child is killed at most once, whatever the events; and a child
    that closes before the timer fires is never killed: its timer is
    cleared instead. *)
Theorem runSingleTest_kill_discipline
    (executablePath : jsstring) (testCase : TestCase.t) (testNumber : nat)
    (a : Attempt) :
  List.length
    (List.filter isKill
       (snd (runSingleTest executablePath testCase testNumber a))) <= 1
  /\ forall pre code now post,
       launch a = Spawned (pre ++ Close code now :: post) ->
       Forall (fun e => settles e = false) pre ->
       List.filter isKill
         (snd (runSingleTest executablePath testCase testNumber a)) = []
       /\ In ClearTimeout
            (snd (runSingleTest executablePath testCase testNumber a)).
Proof.
  destruct a as [t0 [e|events]]; unfold runSingleTest; cbn [launch startTime snd].
  - split; [simpl; lia|]. intros pre code now post H. discriminate.
  - split.
    + etransitivity; [apply deliverAll_kills_once|]. simpl. lia.
    + intros pre code now post [= ->] Q.
      rewrite deliverAll_app, deliverAll_cons.
      rewrite (deliverAll_quiet _ _ _ _ _ Q). split.
      * rewrite deliverAll_disarmed
          by (cbn [deliver]; now rewrite timeoutPending_resolve).
        cbn [deliver]. rewrite effects_resolve. simpl.
        rewrite !filter_app, faultsOf_no_kill. reflexivity.
      * match goal with
        | |- In _ (effects (deliverAll _ _ _ post ?st)) =>
            destruct (deliverAll_effects testCase testNumber t0 post st)
              as (tail & -> & _)
        end.
        apply in_or_app. left. cbn [deliver]. rewrite effects_resolve.
        simpl. rewrite ?in_app_iff. simpl. tauto.
Qed.

Lemma runSingleTest_kill_discipline_witness :
  launch printsYes
  = Spawned ([StdoutData (lit "YES" ++ [nl])] ++ Close (Some 0%Z) 1012 :: [])
  /\ Forall (fun e => settles e = false) [StdoutData (lit "YES" ++ [nl])]
  /\ List.filter isKill
       (snd (runSingleTest sampleExecutable sampleCase 1 printsYes)) = []
  /\ In ClearTimeout
       (snd (runSingleTest sampleExecutable sampleCase 1 printsYes)).
Proof.
  split; [reflexivity|]. split; [repeat constructor|].
  apply (proj2 (runSingleTest_kill_discipline sampleExecutable sampleCase 1
                  printsYes)
           [StdoutData (lit "YES" ++ [nl])] (Some 0%Z) 1012%Z []);
    [reflexivity|repeat constructor].
Defined.

(** ** More about the loop *)

Section MoreSuiteFacts.

Variable executablePath : jsstring.
Variable world : nat -> Attempt.

Lemma pushed_none_iff (i : nat) (testCase : TestCase.t) :
  pushed executablePath world i testCase = None
  <-> settling (world i) = false.
Proof.
  unfold pushed.
  rewrite <- (runSingleTest_pending_iff testCase (i + 1)
                (startTime (world i)) executablePath (world i) eq_refl).
  destruct (fst (runSingleTest executablePath testCase (i + 1) (world i)));
    split; congruence.
Qed.

Lemma runTestCasesFrom_not_rejected (rest : list TestCase.t) :
  forall i results log e,
    fst (runTestCasesFrom executablePath world i rest results log)
    <> Rejected e.
Proof.
  induction rest as [|testCase rest IH]; intros i results log e.
  - discriminate.
  - rewrite runTestCasesFrom_cons. cbv zeta.
    destruct (pushed executablePath world i testCase); [apply IH|].
    discriminate.
Qed.

Lemma runTestCasesFrom_pending (rest : list TestCase.t) :
  forall i results log,
    fst (runTestCasesFrom executablePath world i rest results log) = Pending ->
    exists k, k < List.length rest /\ settling (world (i + k)) = false.
Proof.
  induction rest as [|testCase rest IH]; intros i results log.
  - discriminate.
  - rewrite runTestCasesFrom_cons. cbv zeta.
    destruct (pushed executablePath world i testCase) as [r|] eqn:P.
    + intros H. destruct (IH _ _ _ H) as (k & Hk & Hu).
      exists (S k). split; [simpl; lia|].
      now replace (i + S k) with (S i + k) by lia.
    + intros _. exists 0. split; [simpl; lia|].
      rewrite Nat.add_0_r. now apply pushed_none_iff in P.
Qed.

(** The log of a loop that returns: the logs of its runs, in order. *)
Lemma runTestCasesFrom_log (rest : list TestCase.t) :
  forall i results log,
    (forall k, k < List.length rest -> settling (world (i + k)) = true) ->
    snd (runTestCasesFrom executablePath world i rest results log)
    = log ++ List.flat_map
               (fun p => snd (runSingleTest executablePath (snd p)
                                (fst p + 1) (awaitedPart (world (fst p)))))
               (List.combine (seq i (List.length rest)) rest).
Proof.
  induction rest as [|testCase rest IH]; intros i results log Hs.
  - simpl. now rewrite app_nil_r.
  - rewrite runTestCasesFrom_cons. cbv zeta.
    destruct (pushed_settling executablePath world i testCase) as (r & ->).
    + rewrite <- (Nat.add_0_r i). apply Hs. simpl. lia.
    + rewrite IH.
      * simpl. now rewrite <- app_assoc.
      * intros k Hk. replace (S i + k) with (i + S k) by lia.
        apply Hs. simpl. lia.
Qed.

Lemma reactions_silent (tail : list Effect) :
  forallb isReaction tail = true ->
  writesOf tail = [] /\ spawnsOf tail = [].
Proof.
  induction tail as [|e tail IH]; simpl; [now split|].
  intros H. apply andb_prop in H as [He Ht].
  destruct (IH Ht) as [W S]. unfold writesOf, spawnsOf in *. simpl.
  rewrite W, S. now destruct e.
Qed.

Lemma launched_awaitedPart (a : Attempt) :
  launched (awaitedPart a) = launched a.
Proof. unfold launched, awaitedPart. cbn [launch]. now destruct (launch a). Qed.

Lemma runSingleTest_writes (testCase : TestCase.t) (n : nat) (a : Attempt) :
  writesOf (snd (runSingleTest executablePath testCase n a))
  = (if launched a then [TestCase.input testCase ++ [nl]] else [])
  /\ spawnsOf (snd (runSingleTest executablePath testCase n a))
     = [executablePath].
Proof.
  destruct a as [t0 [e|events]]; unfold launched; cbn [launch].
  - split; reflexivity.
  - destruct (runSingleTest_setup testCase n t0 executablePath events)
      as (tail & -> & R).
    destruct (reactions_silent _ R) as [W S].
    unfold writesOf, spawnsOf in *.
    rewrite !flat_map_app, W, S. split; reflexivity.
Qed.

Lemma runs_spawns_writes (rest : list TestCase.t) (i : nat) :
  spawnsOf
    (List.flat_map
       (fun p => snd (runSingleTest executablePath (snd p)
                        (fst p + 1) (awaitedPart (world (fst p)))))
       (List.combine (seq i (List.length rest)) rest))
  = List.repeat executablePath (List.length rest)
  /\ writesOf
       (List.flat_map
          (fun p => snd (runSingleTest executablePath (snd p)
                           (fst p + 1) (awaitedPart (world (fst p)))))
          (List.combine (seq i (List.length rest)) rest))
     = List.flat_map
         (fun p => if launched (world (fst p))
                   then [TestCase.input (snd p) ++ [nl]]
                   else [])
         (List.combine (seq i (List.length rest)) rest).
Proof.
  revert i. induction rest as [|tc rest IH]; intros i; [split; reflexivity|].
  cbn [List.length seq List.combine List.flat_map fst snd List.repeat].
  destruct (runSingleTest_writes tc (i + 1) (awaitedPart (world i)))
    as [W S].
  rewrite launched_awaitedPart in W.
  destruct (IH (Datatypes.S i)) as [IHs IHw].
  unfold spawnsOf, writesOf in *. rewrite !flat_map_app.
  rewrite W, S, IHs, IHw. split; reflexivity.
Qed.

End MoreSuiteFacts.

(** X9. [runTestCases] fails to return exactly when the promise of one of
    its runs is never settled; it never rejects. *)
Theorem runTestCases_pending_iff
    (executablePath : jsstring) (testCases : list TestCase.t)
    (world : nat -> Attempt) :
  (fst (runTestCases executablePath testCases world) = Pending
   <-> exists k, k < List.length testCases /\ settling (world k) = false)
  /\ forall e,
       fst (runTestCases executablePath testCases world) <> Rejected e.
Proof.
  split; [|intros e; apply runTestCasesFrom_not_rejected].
  unfold runTestCases. split.
  - intros H. now apply runTestCasesFrom_pending in H.
  - intros (k & Hk & Hu).
    destruct (fst (runTestCasesFrom executablePath world 0 testCases [] []))
      as [out|e|] eqn:E; [|now apply runTestCasesFrom_not_rejected in E|
                          reflexivity].
    exfalso.
    destruct (runTestCasesFrom_shape executablePath world testCases 0 [] []
                out E) as (rs & _ & L & N).
    destruct (nth_error testCases k) as [tc|] eqn:T.
    + specialize (N _ _ T). simpl in N.
      apply (pushed_none_iff executablePath world k tc) in Hu.
      rewrite Hu in N. apply nth_error_None in N. lia.
    + apply nth_error_None in T. lia.
Qed.

(** The spawns and the writes of a suite that returns. *)
Lemma suite_spawns_writes
    (executablePath : jsstring) (testCases : list TestCase.t)
    (world : nat -> Attempt) :
  (forall k, k < List.length testCases -> settling (world k) = true) ->
  spawnsOf (snd (runTestCases executablePath testCases world))
  = List.repeat executablePath (List.length testCases)
  /\ writesOf (snd (runTestCases executablePath testCases world))
     = List.flat_map
         (fun p => if launched (world (fst p))
                   then [TestCase.input (snd p) ++ [nl]]
                   else [])
         (indexed testCases).
Proof.
  intros Hs. unfold runTestCases, indexed.
  rewrite runTestCasesFrom_log by exact Hs. cbn [app].
  apply runs_spawns_writes.
Qed.

(** X10. A suite that returns has spawned the executable once per test
    case and nothing else, and has written to the children it launched,
    in the order of the test cases, the input of each followed by one line
    feed. *)
Theorem runTestCases_one_child_per_case
    (executablePath : jsstring) (testCases : list TestCase.t)
    (world : nat -> Attempt) :
  (forall k, k < List.length testCases -> settling (world k) = true) ->
  spawnsOf (snd (runTestCases executablePath testCases world))
  = List.repeat executablePath (List.length testCases)
  /\ writesOf (snd (runTestCases executablePath testCases world))
     = List.flat_map
         (fun p => if launched (world (fst p))
                   then [TestCase.input (snd p) ++ [nl]]
                   else [])
         (indexed testCases).
Proof. apply suite_spawns_writes. Qed.

Lemma runTestCases_one_child_per_case_witness :
  (forall k, k < List.length [sampleCase; sampleCase] ->
             settling ((fun i => match i with
                                 | 0 => printsYes
                                 | _ => loopsForever
                                 end) k) = true)
  /\ spawnsOf (snd (runTestCases sampleExecutable [sampleCase; sampleCase]
                      (fun i => match i with
                                | 0 => printsYes
                                | _ => loopsForever
                                end)))
     = [sampleExecutable; sampleExecutable]
  /\ writesOf (snd (runTestCases sampleExecutable [sampleCase; sampleCase]
                      (fun i => match i with
                                | 0 => printsYes
                                | _ => loopsForever
                                end)))
     = [lit "8" ++ [nl]; lit "8" ++ [nl]].
Proof.
  split.
  - intros [|[|k]] Hk; [reflexivity|reflexivity|simpl in Hk; lia].
  - apply (runTestCases_one_child_per_case sampleExecutable
             [sampleCase; sampleCase]
             (fun i => match i with 0 => printsYes | _ => loopsForever end)).
    intros [|[|k]] Hk; [reflexivity|reflexivity|simpl in Hk; lia].
Defined.

(** X11. Each result of a report is decided by its own test case and its
    own child: it is what [runSingleTest] resolves with for that case, or,
    when [spawn] throws, the failed result of the [catch], with the message
    of the error, an empty [actualOutput] and an [executionTime] of 0.  What
    happens to the other cases does not enter. *)
Theorem runTestCases_result_by_case
    (executablePath : jsstring) (testCases : list TestCase.t)
    (world : nat -> Attempt) :
  (forall k, k < List.length testCases -> settling (world k) = true) ->
  exists results,
    fst (runTestCases executablePath testCases world) = Resolved results
    /\ forall k testCase,
         nth_error testCases k = Some testCase ->
         match fst (runSingleTest executablePath testCase (k + 1) (world k))
         with
         | Resolved r => nth_error results k = Some r
         | Rejected e =>
             nth_error results k = Some (caughtResult testCase k e)
             /\ launch (world k) = SpawnThrows e
             /\ internalError e (caughtResult testCase k e)
         | Pending => False
         end.
Proof.
  intros Hs. unfold runTestCases.
  destruct (runTestCasesFrom_returns executablePath world testCases 0 [] []
              Hs) as (out & E).
  destruct (runTestCasesFrom_shape executablePath world testCases 0 [] []
              out E) as (rs & -> & L & N).
  exists rs. split; [exact E|].
  intros k tc T. specialize (N _ _ T). simpl in N. unfold pushed in N.
  assert (Hk : k < List.length testCases).
  { apply nth_error_Some. congruence. }
  pose proof (runSingleTest_settling tc (k + 1) (startTime (world k))
                executablePath (world k) eq_refl (Hs _ Hk)) as P.
  destruct (fst (runSingleTest executablePath tc (k + 1) (world k)))
    as [r|e|] eqn:R; [exact N| |congruence].
  split; [exact N|].
  unfold runSingleTest in R.
  destruct (launch (world k)) as [e'|events] eqn:La.
  - simpl in R. injection R as ->. split; [reflexivity|]. repeat split.
  - simpl in R. destruct (promise _); discriminate.
Qed.

Lemma runTestCases_result_by_case_witness :
  (forall k, k < List.length [sampleCase; sampleCase] ->
             settling ((fun i => match i with
                                 | 0 => {| startTime := 7;
                                           launch := SpawnThrows spawnENOENT |}
                                 | _ => printsYes
                                 end) k) = true)
  /\ exists results,
       fst (runTestCases sampleExecutable [sampleCase; sampleCase]
              (fun i => match i with
                        | 0 => {| startTime := 7;
                                  launch := SpawnThrows spawnENOENT |}
                        | _ => printsYes
                        end))
       = Resolved results
       /\ forall k testCase,
            nth_error [sampleCase; sampleCase] k = Some testCase ->
            match fst (runSingleTest sampleExecutable testCase (k + 1)
                         ((fun i => match i with
                                    | 0 => {| startTime := 7;
                                              launch :=
                                                SpawnThrows spawnENOENT |}
                                    | _ => printsYes
                                    end) k))
            with
            | Resolved r => nth_error results k = Some r
            | Rejected e =>
                nth_error results k = Some (caughtResult testCase k e)
                /\ launch ((fun i => match i with
                                     | 0 => {| startTime := 7;
                                               launch :=
                                                 SpawnThrows spawnENOENT |}
                                     | _ => printsYes
                                     end) k) = SpawnThrows e
                /\ internalError e (caughtResult testCase k e)
            | Pending => False
            end.
Proof.
  split.
  - intros [|[|k]] Hk; [reflexivity|reflexivity|simpl in Hk; lia].
  - apply (runTestCases_result_by_case sampleExecutable
             [sampleCase; sampleCase]
             (fun i => match i with
                       | 0 => {| startTime := 7;
                                 launch := SpawnThrows spawnENOENT |}
                       | _ => printsYes
                       end)).
    intros [|[|k]] Hk; [reflexivity|reflexivity|simpl in Hk; lia].
Defined.

(** ** What is shown *)

Section DisplayFacts.

Lemma filter_length_all {A : Type} (f : A -> bool) (l : list A) :
  List.length (List.filter f l) = List.length l <-> forallb f l = true.
Proof.
  induction l as [|a l IH]; simpl; [tauto|].
  pose proof (filter_length_le f l) as Le.
  destruct (f a); simpl.
  - rewrite <- IH. split; [now intros [= H]|now intros ->].
  - split; [lia|discriminate].
Qed.

Lemma resultLines_display (r : TestResult.t) :
  forallb isDisplay (resultLines r) = true.
Proof.
  unfold resultLines.
  destruct (TestResult.passed r); [reflexivity|].
  cbn [negb]. destruct (TestResult.error r) as [[|c e]|]; reflexivity.
Qed.

Lemma showTestResults_display (results : list TestResult.t) :
  forallb isDisplay (showTestResults results) = true.
Proof.
  unfold showTestResults. rewrite forallb_app. apply andb_true_intro. split.
  - cbn. now destruct (passedTests results =? totalTests results)%nat.
  - induction results as [|r results IH]; [reflexivity|].
    cbn [List.flat_map]. rewrite forallb_app, resultLines_display. exact IH.
Qed.

End DisplayFacts.

(** X12. [showTestResults] announces that all tests passed exactly when
    every result passed, which includes the empty report, and otherwise
    warns with the number of passed results, which is then smaller than the
    total. *)
Theorem showTestResults_summary (results : list TestResult.t) :
  hd_error (showTestResults results)
  = Some (if forallb TestResult.passed results
          then ShowInformationMessage
                 (checkMark ++ lit " All "
                  ++ decimalNat (List.length results)
                  ++ lit " tests passed!")
          else ShowWarningMessage
                 (crossMark ++ lit " " ++ decimalNat (passedTests results)
                  ++ lit "/" ++ decimalNat (List.length results)
                  ++ lit " tests passed"))
  /\ passedTests results <= totalTests results
  /\ (passedTests results = totalTests results
      <-> forallb TestResult.passed results = true).
Proof.
  assert (I : passedTests results = totalTests results
              <-> forallb TestResult.passed results = true)
    by apply filter_length_all.
  split; [|split; [apply filter_length_le|exact I]].
  unfold showTestResults. cbn [hd_error app]. f_equal.
  destruct (Nat.eqb_spec (passedTests results) (totalTests results)) as [E|E].
  - apply I in E. now rewrite E.
  - destruct (forallb TestResult.passed results); [|reflexivity].
    exfalso. apply E, I. reflexivity.
Qed.

(** X13. Every result of the report has its lines in what is shown.  A
    passed result has two lines, its number and its time; a failed result
    also shows its input, its expected output and its actual output, and
    its error when the error text is not empty. *)
Theorem showTestResults_details
    (results : list TestResult.t) (r : TestResult.t) :
  In r results ->
  incl (resultLines r) (showTestResults results)
  /\ (TestResult.passed r = true -> List.length (resultLines r) = 2)
  /\ (TestResult.passed r = false ->
      In (AppendLine (TestResult.input r)) (resultLines r)
      /\ In (AppendLine (TestResult.expectedOutput r)) (resultLines r)
      /\ In (AppendLine (TestResult.actualOutput r)) (resultLines r)
      /\ List.length (resultLines r)
         = match TestResult.error r with
           | Some (_ :: _) => 10
           | Some [] | None => 9
           end
      /\ forall text,
           TestResult.error r = Some text -> text <> [] ->
           In (AppendLine ([nl] ++ lit "Error: " ++ text)) (resultLines r)).
Proof.
  intros Hin. split; [|split].
  - intros e He. unfold showTestResults. apply in_or_app. right.
    apply in_flat_map. now exists r.
  - unfold resultLines. now intros ->.
  - unfold resultLines. intros ->. cbn [negb app].
    repeat split.
    + simpl. tauto.
    + simpl. tauto.
    + simpl. tauto.
    + destruct (TestResult.error r) as [[|c e]|]; reflexivity.
    + intros text -> N. destruct text as [|c e]; [congruence|].
      simpl. tauto.
Qed.

Lemma showTestResults_details_witness :
  In (timeoutResult sampleCase 2 1000 (lit "NO") 6001)
     [closeResult sampleCase 1 1000 (lit "YES") [] (Some 0%Z) 1012;
      timeoutResult sampleCase 2 1000 (lit "NO") 6001]
  /\ incl (resultLines (timeoutResult sampleCase 2 1000 (lit "NO") 6001))
          (showTestResults
             [closeResult sampleCase 1 1000 (lit "YES") [] (Some 0%Z) 1012;
              timeoutResult sampleCase 2 1000 (lit "NO") 6001])
  /\ In (AppendLine (lit "NO"))
        (resultLines (timeoutResult sampleCase 2 1000 (lit "NO") 6001)).
Proof.
  split; [right; left; reflexivity|].
  destruct (showTestResults_details
              [closeResult sampleCase 1 1000 (lit "YES") [] (Some 0%Z) 1012;
               timeoutResult sampleCase 2 1000 (lit "NO") 6001]
              (timeoutResult sampleCase 2 1000 (lit "NO") 6001))
    as (I & _ & F); [right; left; reflexivity|].
  split; [exact I|]. now destruct (F eq_refl) as (_ & _ & A & _).
Defined.

(** ** What [handleRunTests] does and does not *)

Section HandlerFacts.

Variable host : Host.

Lemma runSingleTest_process (executablePath : jsstring)
    (testCase : TestCase.t) (n : nat) (a : Attempt) :
  forallb isProcess (snd (runSingleTest executablePath testCase n a)) = true.
Proof.
  destruct a as [t0 [e|events]]; [reflexivity|].
  destruct (runSingleTest_setup testCase n t0 executablePath events)
    as (tail & -> & R).
  rewrite forallb_app. apply andb_true_intro. split; [reflexivity|].
  rewrite forallb_forall in *. intros e He. specialize (R e He).
  now destruct e.
Qed.

Lemma runTestCasesFrom_process (executablePath : jsstring)
    (world : nat -> Attempt) (rest : list TestCase.t) :
  forall i results log,
    forallb isProcess log = true ->
    forallb isProcess
      (snd (runTestCasesFrom executablePath world i rest results log))
    = true.
Proof.
  induction rest as [|testCase rest IH]; intros i results log H; [exact H|].
  rewrite runTestCasesFrom_cons. cbv zeta.
  assert (D : forallb isProcess
                (log ++ snd (runSingleTest executablePath testCase (i + 1)
                               (awaitedPart (world i)))) = true).
  { rewrite forallb_app, H. apply runSingleTest_process. }
  destruct (pushed executablePath world i testCase); [now apply IH|exact D].
Qed.

Lemma in_spawnsOf (p : jsstring) (log : list Effect) :
  In (Spawn p) log -> In p (spawnsOf log).
Proof.
  intros H. unfold spawnsOf. apply in_flat_map.
  exists (Spawn p). split; [exact H|now left].
Qed.

Lemma runTestCasesFrom_spawn (executablePath : jsstring)
    (world : nat -> Attempt) (rest : list TestCase.t) :
  forall i results log p,
    In (Spawn p)
       (snd (runTestCasesFrom executablePath world i rest results log)) ->
    In (Spawn p) log \/ (p = executablePath /\ rest <> []).
Proof.
  induction rest as [|testCase rest IH]; intros i results log p.
  - simpl. tauto.
  - rewrite runTestCasesFrom_cons. cbv zeta.
    assert (D : In (Spawn p)
                  (log ++ snd (runSingleTest executablePath testCase (i + 1)
                                 (awaitedPart (world i)))) ->
                In (Spawn p) log \/ (p = executablePath /\ testCase :: rest <> [])).
    { rewrite in_app_iff. intros [H|H]; [now left|right].
      split; [|discriminate]. apply in_spawnsOf in H.
      destruct (runSingleTest_writes executablePath testCase (i + 1)
                  (awaitedPart (world i))) as [_ S].
      rewrite S in H. destruct H as [H|[]]. now symmetry. }
    destruct (pushed executablePath world i testCase); [|exact D].
    intros H. destruct (IH _ _ _ _ H) as [H'|[H' _]]; [now apply D|].
    right. split; [exact H'|discriminate].
Qed.

(** [handleRunTests] when the checks pass and the save, if any, succeeds. *)
Lemma handleRunTests_ready (problemData : ProblemData.t) (ed : Editor) :
  activeTextEditor host = Some ed ->
  endsWith (fileName ed) (lit ".cpp") = true ->
  (isDirty ed = true -> save ed = None) ->
  handleRunTests host (Some problemData)
  = preamble ed
    ++ [Exec (compileCommandFor host (fileName ed))]
    ++ match exec host (compileCommandFor host (fileName ed)) with
       | Some (stderr, message) =>
           [ShowErrorMessage
              (lit "Test execution failed: " ++ lit "Compilation failed: "
               ++ compileDiagnostic stderr message)]
       | None =>
           snd (runTestCases (executableFor host (fileName ed))
                  (ProblemData.sampleTests problemData) (child host))
           ++ match fst (runTestCases (executableFor host (fileName ed))
                           (ProblemData.sampleTests problemData)
                           (child host)) with
              | Resolved results =>
                  showTestResults results
                  ++ cleanup host (executableFor host (fileName ed))
              | Rejected error => [testExecutionFailed error]
              | Pending => []
              end
       end.
Proof.
  intros He Hc Hs. unfold handleRunTests. rewrite He, Hc. cbn [negb].
  assert (S : (if isDirty ed then save ed else None) = None).
  { destruct (isDirty ed); [now apply Hs|reflexivity]. }
  rewrite S. unfold preamble. rewrite <- !app_assoc. f_equal. f_equal.
  unfold compileCppFile.
  fold (executableFor host (fileName ed)).
  fold (compileCommandFor host (fileName ed)).
  destruct (exec host (compileCommandFor host (fileName ed)))
    as [[stderr message]|].
  - reflexivity.
  - cbn [app].
    destruct (runTestCases (executableFor host (fileName ed))
                (ProblemData.sampleTests problemData) (child host))
      as [awaited running].
    reflexivity.
Qed.

(** [handleRunTests] when a check fails or the save throws: one error
    message, after the attempt to save if there was one. *)
Lemma handleRunTests_refused (problemData : option ProblemData.t) :
  (problemData = None
   \/ activeTextEditor host = None
   \/ exists ed, activeTextEditor host = Some ed
                 /\ (endsWith (fileName ed) (lit ".cpp") = false
                     \/ (isDirty ed = true /\ save ed <> None))) ->
  exists m,
    handleRunTests host problemData = [ShowErrorMessage m]
    \/ handleRunTests host problemData = [SaveDocument; ShowErrorMessage m].
Proof.
  unfold handleRunTests. intros H.
  destruct problemData as [pd|]; [|eexists; left; reflexivity].
  destruct (activeTextEditor host) as [ed|]; [|eexists; left; reflexivity].
  destruct (endsWith (fileName ed) (lit ".cpp")) eqn:C;
    [|eexists; left; reflexivity].
  cbn [negb].
  destruct H as [H|[H|(ed' & E & H)]]; try discriminate.
  injection E as <-. destruct H as [H|[D S]]; [congruence|].
  rewrite D. destruct (save ed) as [e|]; [|congruence].
  eexists. right. reflexivity.
Qed.

End HandlerFacts.

(** X14. No child is spawned unless there is problem data with at least
    one sample test, the active editor holds a file whose name ends in
    [.cpp], the save of a dirty document succeeded and the compiler
    succeeded; what is spawned is the executable just compiled. *)
Theorem handleRunTests_spawns_only_after_compiling
    (host : Host) (problemData : option ProblemData.t) (p : jsstring) :
  In (Spawn p) (handleRunTests host problemData) ->
  exists pd ed,
    problemData = Some pd
    /\ activeTextEditor host = Some ed
    /\ endsWith (fileName ed) (lit ".cpp") = true
    /\ (isDirty ed = true -> save ed = None)
    /\ exec host (compileCommandFor host (fileName ed)) = None
    /\ p = executableFor host (fileName ed)
    /\ ProblemData.sampleTests pd <> [].
Proof.
  intros H.
  destruct problemData as [pd|];
    [|destruct H as [H|[]]; discriminate].
  destruct (activeTextEditor host) as [ed|] eqn:He;
    [|unfold handleRunTests in H; rewrite He in H;
      destruct H as [H|[]]; discriminate].
  destruct (endsWith (fileName ed) (lit ".cpp")) eqn:C;
    [|unfold handleRunTests in H; rewrite He, C in H;
      destruct H as [H|[]]; discriminate].
  assert (Hs : isDirty ed = true -> save ed = None).
  { intros D. destruct (save ed) as [e|] eqn:S; [|reflexivity].
    unfold handleRunTests in H. rewrite He, C, D, S in H.
    destruct H as [H|[H|[]]]; discriminate. }
  rewrite (handleRunTests_ready host pd ed He C Hs) in H.
  exists pd, ed. repeat split; try assumption;
    rewrite !in_app_iff in H; destruct H as [H|[H|H]].
  - unfold preamble in H. rewrite in_app_iff in H.
    destruct (isDirty ed); destruct H as [H|H]; simpl in H;
      intuition discriminate.
  - destruct H as [H|[]]. discriminate.
  - destruct (exec host _) as [[stderr message]|]; [|reflexivity].
    destruct H as [H|[]]. discriminate.
  - unfold preamble in H. rewrite in_app_iff in H.
    destruct (isDirty ed); destruct H as [H|H]; simpl in H;
      intuition discriminate.
  - destruct H as [H|[]]. discriminate.
  - destruct (exec host _) as [[stderr message]|];
      [destruct H as [H|[]]; discriminate|].
    rewrite in_app_iff in H. destruct H as [H|H].
    + apply runTestCasesFrom_spawn in H. destruct H as [[]|[H _]]. exact H.
    + exfalso.
      destruct (fst (runTestCases _ _ _)) as [results|e|].
      * rewrite in_app_iff in H. destruct H as [H|H].
        -- pose proof (showTestResults_display results) as Dp.
           rewrite forallb_forall in Dp. specialize (Dp _ H). discriminate.
        -- unfold cleanup in H. destruct (existsSync host _);
             [destruct H as [H|[]]; discriminate|destruct H].
      * destruct H as [H|[]]. discriminate.
      * destruct H.
  - unfold preamble in H. rewrite in_app_iff in H.
    destruct (isDirty ed); destruct H as [H|H]; simpl in H;
      intuition discriminate.
  - destruct H as [H|[]]. discriminate.
  - destruct (exec host _) as [[stderr message]|];
      [destruct H as [H|[]]; discriminate|].
    rewrite in_app_iff in H. destruct H as [H|H].
    + apply runTestCasesFrom_spawn in H. destruct H as [[]|[_ H]]. exact H.
    + exfalso.
      destruct (fst (runTestCases _ _ _)) as [results|e|].
      * rewrite in_app_iff in H. destruct H as [H|H].
        -- pose proof (showTestResults_display results) as Dp.
           rewrite forallb_forall in Dp. specialize (Dp _ H). discriminate.
        -- unfold cleanup in H. destruct (existsSync host _);
             [destruct H as [H|[]]; discriminate|destruct H].
      * destruct H as [H|[]]. discriminate.
      * destruct H.
Qed.

Lemma handleRunTests_spawns_only_after_compiling_witness :
  In (Spawn (lit "./solution.exe"))
     (handleRunTests
        (sampleHost (lit "solution.cpp") None (fun _ => printsYes))
        (Some sampleProblem))
  /\ exists pd ed,
       Some sampleProblem = Some pd
       /\ activeTextEditor
            (sampleHost (lit "solution.cpp") None (fun _ => printsYes))
          = Some ed
       /\ endsWith (fileName ed) (lit ".cpp") = true
       /\ (isDirty ed = true -> save ed = None)
       /\ exec (sampleHost (lit "solution.cpp") None (fun _ => printsYes))
               (compileCommandFor
                  (sampleHost (lit "solution.cpp") None (fun _ => printsYes))
                  (fileName ed)) = None
       /\ lit "./solution.exe"
          = executableFor
              (sampleHost (lit "solution.cpp") None (fun _ => printsYes))
              (fileName ed)
       /\ ProblemData.sampleTests pd <> [].
Proof.
  split; [right; right; left; reflexivity|].
  apply (handleRunTests_spawns_only_after_compiling
           (sampleHost (lit "solution.cpp") None (fun _ => printsYes))
           (Some sampleProblem) (lit "./solution.exe")).
  right; right; left; reflexivity.
Defined.

(** X15. A failed compilation ends the run: after the compile command the
    only effect is one error message, which carries what the compiler wrote
    to its standard error, or the message of the error when it wrote
    nothing; no test runs, no result is shown and nothing is deleted. *)
Theorem handleRunTests_compile_failure
    (host : Host) (problemData : ProblemData.t) (ed : Editor)
    (stderr message : jsstring) :
  activeTextEditor host = Some ed ->
  endsWith (fileName ed) (lit ".cpp") = true ->
  (isDirty ed = true -> save ed = None) ->
  exec host (compileCommandFor host (fileName ed)) = Some (stderr, message) ->
  handleRunTests host (Some problemData)
  = preamble ed
    ++ [Exec (compileCommandFor host (fileName ed));
        ShowErrorMessage
          (lit "Test execution failed: Compilation failed: "
           ++ compileDiagnostic stderr message)]
  /\ List.existsb isProcess (handleRunTests host (Some problemData)) = false
  /\ List.existsb isUnlink (handleRunTests host (Some problemData)) = false.
Proof.
  intros He Hc Hs Hx.
  rewrite (handleRunTests_ready host problemData ed He Hc Hs), Hx.
  unfold preamble. destruct (isDirty ed); repeat split.
Qed.

Lemma handleRunTests_compile_failure_witness :
  activeTextEditor
    (sampleHost (lit "solution.cpp")
       (Some (lit "solution.cpp:1:1: error: expected unqualified-id",
              lit "Command failed"))
       (fun _ => printsYes))
  = Some {| fileName := lit "solution.cpp"; isDirty := false; save := None |}
  /\ handleRunTests
       (sampleHost (lit "solution.cpp")
          (Some (lit "solution.cpp:1:1: error: expected unqualified-id",
                 lit "Command failed"))
          (fun _ => printsYes))
       (Some sampleProblem)
     = [ShowInformationMessage
          (arrowsMark ++ lit " Compiling and running tests...");
        Exec (lit "g++ -o " ++ [quote] ++ lit "./solution.exe" ++ [quote]
              ++ lit " " ++ [quote] ++ lit "solution.cpp" ++ [quote]
              ++ lit " -std=c++17 -O2");
        ShowErrorMessage
          (lit "Test execution failed: Compilation failed: solution.cpp:1:1: error: expected unqualified-id")].
Proof.
  split; [reflexivity|].
  apply (handleRunTests_compile_failure
           (sampleHost (lit "solution.cpp")
              (Some (lit "solution.cpp:1:1: error: expected unqualified-id",
                     lit "Command failed"))
              (fun _ => printsYes))
           sampleProblem
           {| fileName := lit "solution.cpp"; isDirty := false;
              save := None |}
           (lit "solution.cpp:1:1: error: expected unqualified-id")
           (lit "Command failed"));
    [reflexivity|reflexivity|discriminate|reflexivity].
Defined.

Lemma process_not_unlink (log : list Effect) :
  forallb isProcess log = true -> List.existsb isUnlink log = false.
Proof.
  induction log as [|e log IH]; simpl; [reflexivity|].
  intros H. apply andb_prop in H as [He Hl]. rewrite (IH Hl).
  now destruct e.
Qed.

Lemma display_not_unlink (log : list Effect) (p : jsstring) :
  forallb isDisplay log = true -> ~ In (Unlink p) log.
Proof.
  rewrite forallb_forall. intros H Hin. specialize (H _ Hin). discriminate.
Qed.

(** X16. The only file [handleRunTests] ever deletes is the executable it
    compiled, when that file exists; it does so once, as the last step it
    takes itself, after the suite has returned and its results have been
    shown.  What can still come afterwards are the reactions to the events
    that children send after their promises were settled, and these only
    clear a timer or raise an uncaught fault. *)
Theorem handleRunTests_unlinks_only_the_executable
    (host : Host) (problemData : option ProblemData.t) (p : jsstring) :
  In (Unlink p) (handleRunTests host problemData) ->
  exists pd ed results pre,
    problemData = Some pd
    /\ activeTextEditor host = Some ed
    /\ p = executableFor host (fileName ed)
    /\ existsSync host p = true
    /\ fst (runTestCases p (ProblemData.sampleTests pd) (child host))
       = Resolved results
    /\ handleRunTests host problemData
       = pre ++ showTestResults results ++ [Unlink p]
    /\ List.existsb isUnlink pre = false
    /\ forall k testCase,
         forallb isLate (lateReactions p testCase (k + 1) (child host k))
         = true.
Proof.
  intros H.
  destruct problemData as [pd|];
    [|destruct H as [H|[]]; discriminate].
  destruct (activeTextEditor host) as [ed|] eqn:He;
    [|unfold handleRunTests in H; rewrite He in H;
      destruct H as [H|[]]; discriminate].
  destruct (endsWith (fileName ed) (lit ".cpp")) eqn:C;
    [|unfold handleRunTests in H; rewrite He, C in H;
      destruct H as [H|[]]; discriminate].
  assert (Hs : isDirty ed = true -> save ed = None).
  { intros D. destruct (save ed) as [e|] eqn:S; [|reflexivity].
    unfold handleRunTests in H. rewrite He, C, D, S in H.
    destruct H as [H|[H|[]]]; discriminate. }
  pose proof (handleRunTests_ready host pd ed He C Hs) as R.
  rewrite R in H.
  assert (Pre : List.existsb isUnlink (preamble ed) = false).
  { unfold preamble. now destruct (isDirty ed). }
  assert (NotPre : ~ In (Unlink p) (preamble ed)).
  { intros X. assert (Y : List.existsb isUnlink (preamble ed) = true).
    { apply existsb_exists. now exists (Unlink p). }
    congruence. }
  rewrite !in_app_iff in H. destruct H as [H|[H|H]]; [contradiction| |].
  { destruct H as [H|[]]. discriminate. }
  destruct (exec host (compileCommandFor host (fileName ed)))
    as [[stderr message]|]; [destruct H as [H|[]]; discriminate|].
  pose proof (runTestCasesFrom_process (executableFor host (fileName ed))
                (child host) (ProblemData.sampleTests pd) 0 [] [] eq_refl)
    as Pr.
  fold (runTestCases (executableFor host (fileName ed))
          (ProblemData.sampleTests pd) (child host)) in Pr.
  rewrite in_app_iff in H. destruct H as [H|H].
  { exfalso. rewrite forallb_forall in Pr. specialize (Pr _ H).
    discriminate. }
  destruct (fst (runTestCases (executableFor host (fileName ed))
                   (ProblemData.sampleTests pd) (child host)))
    as [results|e|] eqn:F.
  - rewrite in_app_iff in H. destruct H as [H|H].
    { exfalso. exact (display_not_unlink _ _ (showTestResults_display results) H). }
    unfold cleanup in H, R.
    destruct (existsSync host (executableFor host (fileName ed))) eqn:X;
      [|destruct H].
    destruct H as [H|[]]. injection H as <-.
    exists pd, ed, results,
      (preamble ed ++ [Exec (compileCommandFor host (fileName ed))]
       ++ snd (runTestCases (executableFor host (fileName ed))
                 (ProblemData.sampleTests pd) (child host))).
    split; [reflexivity|]. split; [reflexivity|]. split; [reflexivity|].
    split; [exact X|]. split; [exact F|]. split; [|split].
    + rewrite R. now rewrite <- !app_assoc.
    + rewrite !existsb_app, Pre, (process_not_unlink _ Pr). reflexivity.
    + intros k tc.
      apply (runSingleTest_late tc (k + 1) (startTime (child host k))
               (executableFor host (fileName ed)) (child host k) eq_refl).
  - destruct H as [H|[]]. discriminate.
  - destruct H.
Qed.

Lemma handleRunTests_unlinks_only_the_executable_witness :
  In (Unlink (lit "./solution.exe"))
     (handleRunTests
        (sampleHost (lit "solution.cpp") None (fun _ => printsYes))
        (Some sampleProblem))
  /\ exists pd ed results pre,
       Some sampleProblem = Some pd
       /\ activeTextEditor
            (sampleHost (lit "solution.cpp") None (fun _ => printsYes))
          = Some ed
       /\ lit "./solution.exe"
          = executableFor
              (sampleHost (lit "solution.cpp") None (fun _ => printsYes))
              (fileName ed)
       /\ existsSync
            (sampleHost (lit "solution.cpp") None (fun _ => printsYes))
            (lit "./solution.exe") = true
       /\ fst (runTestCases (lit "./solution.exe")
                 (ProblemData.sampleTests pd)
                 (child (sampleHost (lit "solution.cpp") None
                           (fun _ => printsYes))))
          = Resolved results
       /\ handleRunTests
            (sampleHost (lit "solution.cpp") None (fun _ => printsYes))
            (Some sampleProblem)
          = pre ++ showTestResults results ++ [Unlink (lit "./solution.exe")]
       /\ List.existsb isUnlink pre = false
       /\ forall k testCase,
            forallb isLate
              (lateReactions (lit "./solution.exe") testCase (k + 1)
                 (child (sampleHost (lit "solution.cpp") None
                           (fun _ => printsYes)) k))
            = true.
Proof.
  assert (I : In (Unlink (lit "./solution.exe"))
                (handleRunTests
                   (sampleHost (lit "solution.cpp") None (fun _ => printsYes))
                   (Some sampleProblem))).
  { apply in_or_app. right. apply in_or_app. right.
    apply in_or_app. right. apply in_or_app. right.
    apply in_or_app. right. left. reflexivity. }
  split; [exact I|].
  exact (handleRunTests_unlinks_only_the_executable
           (sampleHost (lit "solution.cpp") None (fun _ => printsYes))
           (Some sampleProblem) (lit "./solution.exe") I).
Defined.

(** A child that is killed by the timer sends its ['close'] afterwards:
    the results are shown and the executable is deleted first, the timer
    of the child is cleared last. *)
Example handleRunTests_timed_out_child :
  handleRunTests
    (sampleHost (lit "solution.cpp") None (fun _ => loopsForever))
    (Some sampleProblem)
  = [ShowInformationMessage
       (arrowsMark ++ lit " Compiling and running tests...");
     Exec (compileCommandFor
             (sampleHost (lit "solution.cpp") None (fun _ => loopsForever))
             (lit "solution.cpp"));
     Spawn (lit "./solution.exe"); StdinWrite (lit "8" ++ [nl]); StdinEnd;
     SetTimeout 5000; Kill]
    ++ showTestResults [timeoutResult sampleCase 1 1000 (lit "NO") 6001]
    ++ [Unlink (lit "./solution.exe")]
  /\ lateReactions (lit "./solution.exe") sampleCase 1 loopsForever
     = [ClearTimeout].
Proof. split; reflexivity. Qed.

(** The whole trace of a run that goes through. *)
Lemma handleRunTests_trace
    (host : Host) (problemData : ProblemData.t) (ed : Editor) :
  activeTextEditor host = Some ed ->
  endsWith (fileName ed) (lit ".cpp") = true ->
  (isDirty ed = true -> save ed = None) ->
  exec host (compileCommandFor host (fileName ed)) = None ->
  (forall k, k < List.length (ProblemData.sampleTests problemData) ->
             settling (child host k) = true) ->
  exists results,
    fst (runTestCases (executableFor host (fileName ed))
           (ProblemData.sampleTests problemData) (child host))
    = Resolved results
    /\ List.length results
       = List.length (ProblemData.sampleTests problemData)
    /\ handleRunTests host (Some problemData)
       = preamble ed
         ++ [Exec (compileCommandFor host (fileName ed))]
         ++ snd (runTestCases (executableFor host (fileName ed))
                   (ProblemData.sampleTests problemData) (child host))
         ++ showTestResults results
         ++ cleanup host (executableFor host (fileName ed))
    /\ In (AppendLine
             (lit "TEST RESULTS: "
              ++ decimalNat (List.length (List.filter acceptedb results))
              ++ lit "/"
              ++ decimalNat
                   (List.length (ProblemData.sampleTests problemData))
              ++ lit " PASSED"))
          (showTestResults results)
    /\ forall k testCase,
         forallb isLate
           (lateReactions (executableFor host (fileName ed)) testCase
              (k + 1) (child host k))
         = true.
Proof.
  intros He Hc Hs Hx Hw.
  pose proof (runTestCasesFrom_returns (executableFor host (fileName ed))
                (child host) (ProblemData.sampleTests problemData) 0 [] []
                Hw) as (out & E).
  destruct (runTestCasesFrom_shape (executableFor host (fileName ed))
              (child host) (ProblemData.sampleTests problemData) 0 [] []
              out E) as (rs & -> & L & N).
  destruct (pushed_list_fields (executableFor host (fileName ed))
              (child host) 0 (ProblemData.sampleTests problemData) rs L N)
    as (_ & _ & _ & Hp).
  cbn [app] in E. fold (runTestCases (executableFor host (fileName ed))
          (ProblemData.sampleTests problemData) (child host)) in E.
  exists rs. split; [exact E|]. split; [exact L|]. split.
  - rewrite (handleRunTests_ready host problemData ed He Hc Hs), Hx, E.
    reflexivity.
  - assert (P : passedTests rs = List.length (List.filter acceptedb rs)).
    { unfold passedTests. f_equal. apply filter_ext_in.
      intros r Hin. rewrite Forall_forall in Hp. specialize (Hp r Hin).
      unfold passedIffNoError in Hp. unfold acceptedb.
      destruct (TestResult.passed r); simpl; [|reflexivity].
      destruct Hp as [Hp _]. now rewrite (Hp eq_refl). }
    split.
    + unfold showTestResults. rewrite <- P, <- L. unfold totalTests.
      apply in_or_app. left. simpl. tauto.
    + intros k tc.
      apply (runSingleTest_late tc (k + 1) (startTime (child host k))
               (executableFor host (fileName ed)) (child host k) eq_refl).
Qed.

(** X18. When the checks pass, the compiler succeeds and every child
    settles, [handleRunTests] runs to its end, and the steps it takes
    itself are, in order: it saves a dirty document, announces and runs the
    compilation, runs the suite, each child up to the settling of its
    promise, shows one result per sample test under a header with the
    number of passed results and the number of sample tests, and then
    cleans up.  The reactions to what a killed or closed child still sends
    are not among these steps; they only clear a timer or raise an uncaught
    fault. *)
Theorem handleRunTests_completes
    (host : Host) (problemData : ProblemData.t) (ed : Editor) :
  activeTextEditor host = Some ed ->
  endsWith (fileName ed) (lit ".cpp") = true ->
  (isDirty ed = true -> save ed = None) ->
  exec host (compileCommandFor host (fileName ed)) = None ->
  (forall k, k < List.length (ProblemData.sampleTests problemData) ->
             settling (child host k) = true) ->
  exists results,
    fst (runTestCases (executableFor host (fileName ed))
           (ProblemData.sampleTests problemData) (child host))
    = Resolved results
    /\ List.length results
       = List.length (ProblemData.sampleTests problemData)
    /\ handleRunTests host (Some problemData)
       = preamble ed
         ++ [Exec (compileCommandFor host (fileName ed))]
         ++ snd (runTestCases (executableFor host (fileName ed))
                   (ProblemData.sampleTests problemData) (child host))
         ++ showTestResults results
         ++ cleanup host (executableFor host (fileName ed))
    /\ In (AppendLine
             (lit "TEST RESULTS: "
              ++ decimalNat (List.length (List.filter acceptedb results))
              ++ lit "/"
              ++ decimalNat
                   (List.length (ProblemData.sampleTests problemData))
              ++ lit " PASSED"))
          (showTestResults results)
    /\ forall k testCase,
         forallb isLate
           (lateReactions (executableFor host (fileName ed)) testCase
              (k + 1) (child host k))
         = true.
Proof.
  intros He Hc Hs Hx Hw.
  exact (handleRunTests_trace host problemData ed He Hc Hs Hx Hw).
Qed.

Lemma handleRunTests_completes_witness :
  activeTextEditor (sampleHost (lit "solution.cpp") None (fun _ => printsYes))
  = Some {| fileName := lit "solution.cpp"; isDirty := false; save := None |}
  /\ exists results,
       fst (runTestCases
              (executableFor
                 (sampleHost (lit "solution.cpp") None (fun _ => printsYes))
                 (lit "solution.cpp"))
              (ProblemData.sampleTests sampleProblem)
              (child (sampleHost (lit "solution.cpp") None
                        (fun _ => printsYes))))
       = Resolved results
       /\ List.length results = 1.
Proof.
  split; [reflexivity|].
  destruct (handleRunTests_completes
              (sampleHost (lit "solution.cpp") None (fun _ => printsYes))
              sampleProblem
              {| fileName := lit "solution.cpp"; isDirty := false;
                 save := None |})
    as (results & E & L & _);
    [reflexivity|reflexivity|discriminate|reflexivity| |].
  - intros [|k] Hk; [reflexivity|simpl in Hk; lia].
  - exists results. split; [exact E|exact L].
Defined.

(** ** The provider: which problem the tests are run for *)

Section ProviderFacts.

Lemma handledOf_map (log : list Effect) :
  handledOf (List.map Handled log) = log.
Proof.
  unfold handledOf. induction log as [|e log IH]; [reflexivity|].
  simpl. now rewrite IH.
Qed.

Lemma writesOf_app (a b : list Effect) :
  writesOf (a ++ b) = writesOf a ++ writesOf b.
Proof. apply flat_map_app. Qed.

Lemma writesOf_display (log : list Effect) :
  forallb isDisplay log = true -> writesOf log = [].
Proof.
  induction log as [|e log IH]; simpl; [reflexivity|].
  intros H. apply andb_prop in H as [He Hl].
  unfold writesOf in *. simpl. rewrite (IH Hl). now destruct e.
Qed.

Lemma launched_writes (world : nat -> Attempt) (rest : list TestCase.t)
    (i : nat) :
  (forall k, k < List.length rest -> launched (world (i + k)) = true) ->
  List.flat_map
    (fun p => if launched (world (fst p))
              then [TestCase.input (snd p) ++ [nl]]
              else [])
    (List.combine (seq i (List.length rest)) rest)
  = List.map (fun tc => TestCase.input tc ++ [nl]) rest.
Proof.
  revert i. induction rest as [|tc rest IH]; intros i H; [reflexivity|].
  cbn [List.length seq List.combine List.flat_map List.map fst snd].
  rewrite <- (Nat.add_0_r i) at 1. rewrite H by (simpl; lia).
  cbn [app]. f_equal. apply IH. intros k Hk.
  replace (S i + k) with (i + S k) by lia. apply H. simpl. lia.
Qed.

(** What a press on "Run tests" writes to the children, for a provider
    that holds a problem. *)
Lemma runTests_writes (desk : Desk) (this : Provider)
    (problemData : ProblemData.t) (ed : Editor) :
  currentProblemData this = Some problemData ->
  activeTextEditor (deskHost desk) = Some ed ->
  endsWith (fileName ed) (lit ".cpp") = true ->
  (isDirty ed = true -> save ed = None) ->
  exec (deskHost desk) (compileCommandFor (deskHost desk) (fileName ed))
  = None ->
  (forall k, k < List.length (ProblemData.sampleTests problemData) ->
             settling (child (deskHost desk) k) = true
             /\ launched (child (deskHost desk) k) = true) ->
  writesOf (handledOf (onDidReceiveMessage desk this runTestsMessage))
  = List.map (fun tc => TestCase.input tc ++ [nl])
      (ProblemData.sampleTests problemData).
Proof.
  intros Hd He Hc Hs Hx Hw.
  unfold onDidReceiveMessage. cbn [command runTestsMessage].
  replace (Js.eqb (lit "runTests") (lit "runTests")) with true
    by reflexivity.
  rewrite handledOf_map, Hd.
  destruct (handleRunTests_trace (deskHost desk) problemData ed
              He Hc Hs Hx (fun k Hk => proj1 (Hw k Hk)))
    as (results & E & L & -> & _).
  rewrite !writesOf_app.
  replace (writesOf (preamble ed)) with (@nil jsstring)
    by (unfold preamble; now destruct (isDirty ed)).
  rewrite (writesOf_display _ (showTestResults_display results)).
  replace (writesOf (cleanup (deskHost desk)
                       (executableFor (deskHost desk) (fileName ed))))
    with (@nil jsstring)
    by (unfold cleanup; now destruct (existsSync _ _)).
  replace (writesOf [Exec (compileCommandFor (deskHost desk) (fileName ed))])
    with (@nil jsstring) by reflexivity.
  cbn [app]. rewrite app_nil_r.
  destruct (suite_spawns_writes
              (executableFor (deskHost desk) (fileName ed))
              (ProblemData.sampleTests problemData) (child (deskHost desk))
              (fun k Hk => proj1 (Hw k Hk))) as [_ W].
  rewrite W. unfold indexed.
  apply launched_writes. intros k Hk. apply Hw. exact Hk.
Qed.

End ProviderFacts.

(** X19. A load that fails leaves the problem shown before in place: when
    [extractProblemData] rejects, [showProblem] rejects too, after it has
    opened or revealed the panel, no page is set, and "Run tests" then
    feeds the children the sample inputs of the problem loaded before. *)
Theorem showProblem_failure_keeps_problem
    (desk : Desk) (this : Provider) (urlA urlB : jsstring)
    (problemA : ProblemData.t) (e : Thrown) (ed : Editor) :
  urlA <> [] -> urlB <> [] ->
  extractProblemData desk urlA = Resolved problemA ->
  extractProblemData desk urlB = Rejected e ->
  activeTextEditor (deskHost desk) = Some ed ->
  endsWith (fileName ed) (lit ".cpp") = true ->
  (isDirty ed = true -> save ed = None) ->
  exec (deskHost desk) (compileCommandFor (deskHost desk) (fileName ed))
  = None ->
  (forall k, k < List.length (ProblemData.sampleTests problemA) ->
             settling (child (deskHost desk) k) = true
             /\ launched (child (deskHost desk) k) = true) ->
  let afterA := fst (fst (showProblem desk this (Some urlA))) in
  let loadB := showProblem desk afterA (Some urlB) in
  snd loadB = Rejected e
  /\ snd (fst loadB) = [RevealPanel]
  /\ currentProblemData (fst (fst loadB)) = Some problemA
  /\ writesOf (handledOf
                 (onDidReceiveMessage desk (fst (fst loadB)) runTestsMessage))
     = List.map (fun tc => TestCase.input tc ++ [nl])
         (ProblemData.sampleTests problemA).
Proof.
  intros Na Nb Ea Eb He Hc Hs Hx Hw afterA loadB.
  assert (A : afterA = {| panel := true;
                          currentProblemData := Some problemA |}).
  { unfold afterA, showProblem.
    destruct urlA as [|c u]; [congruence|]. now rewrite Ea. }
  assert (B : loadB = ({| panel := true;
                          currentProblemData := Some problemA |},
                       [RevealPanel], Rejected e)).
  { unfold loadB, showProblem. rewrite A.
    destruct urlB as [|c u]; [congruence|]. now rewrite Eb. }
  rewrite B. cbn [fst snd currentProblemData]. repeat split.
  now apply (runTests_writes desk _ problemA ed).
Qed.

Lemma showProblem_failure_keeps_problem_witness :
  sampleUrl <> [] /\ lit "nonsense" <> []
  /\ extractProblemData sampleDesk sampleUrl = Resolved sampleProblem
  /\ extractProblemData sampleDesk (lit "nonsense") = Rejected invalidUrl
  /\ writesOf
       (handledOf
          (onDidReceiveMessage sampleDesk
             (fst (fst (showProblem sampleDesk
                          (fst (fst (showProblem sampleDesk freshProvider
                                       (Some sampleUrl))))
                          (Some (lit "nonsense")))))
             runTestsMessage))
     = [lit "8" ++ [nl]].
Proof.
  split; [discriminate|]. split; [discriminate|].
  split; [reflexivity|]. split; [reflexivity|].
  refine (proj2 (proj2 (proj2
    (showProblem_failure_keeps_problem sampleDesk freshProvider sampleUrl
       (lit "nonsense") sampleProblem invalidUrl
       {| fileName := lit "solution.cpp"; isDirty := false; save := None |}
       _ _ _ _ _ _ _ _ _)))); try reflexivity; try discriminate.
  intros [|k] Hk; [split; reflexivity|simpl in Hk; lia].
Defined.

(** X20. The viewer opened without a URL, or with an empty one, holds the
    built-in Watermelon problem, and "Run tests" then feeds three children
    the inputs 8, 6 and 2, each followed by a line feed. *)
Theorem showProblem_without_url_runs_watermelon
    (desk : Desk) (this : Provider) (problemUrl : option jsstring)
    (ed : Editor) :
  problemUrl = None \/ problemUrl = Some [] ->
  activeTextEditor (deskHost desk) = Some ed ->
  endsWith (fileName ed) (lit ".cpp") = true ->
  (isDirty ed = true -> save ed = None) ->
  exec (deskHost desk) (compileCommandFor (deskHost desk) (fileName ed))
  = None ->
  (forall k, k < 3 ->
             settling (child (deskHost desk) k) = true
             /\ launched (child (deskHost desk) k) = true) ->
  let shown := showProblem desk this problemUrl in
  snd shown = Resolved tt
  /\ currentProblemData (fst (fst shown)) = Some getDummyProblemData
  /\ In (SetHtml getDummyProblemData) (snd (fst shown))
  /\ writesOf (handledOf
                 (onDidReceiveMessage desk (fst (fst shown)) runTestsMessage))
     = [lit "8" ++ [nl]; lit "6" ++ [nl]; lit "2" ++ [nl]].
Proof.
  intros Hu He Hc Hs Hx Hw shown.
  assert (S : shown = ({| panel := true;
                          currentProblemData := Some getDummyProblemData |},
                       (if panel this then [RevealPanel] else [CreatePanel])
                       ++ [SetHtml getDummyProblemData], Resolved tt)).
  { unfold shown, showProblem. now destruct Hu as [-> | ->]. }
  rewrite S. cbn [fst snd currentProblemData]. repeat split.
  - apply in_or_app. right. now left.
  - now rewrite (runTests_writes desk _ getDummyProblemData ed).
Qed.

Lemma showProblem_without_url_runs_watermelon_witness :
  (@None jsstring = None \/ @None jsstring = Some [])
  /\ writesOf
       (handledOf
          (onDidReceiveMessage sampleDesk
             (fst (fst (showProblem sampleDesk freshProvider None)))
             runTestsMessage))
     = [lit "8" ++ [nl]; lit "6" ++ [nl]; lit "2" ++ [nl]].
Proof.
  split; [left; reflexivity|].
  refine (proj2 (proj2 (proj2
    (showProblem_without_url_runs_watermelon sampleDesk freshProvider None
       {| fileName := lit "solution.cpp"; isDirty := false; save := None |}
       _ _ _ _ _ _)))); try reflexivity; try discriminate.
  - left; reflexivity.
  - intros k Hk. split; reflexivity.
Defined.
